(** * Cortex: composition layer of the Helmholtz machine

    A shallow embedding of [cortex/models/helmholtz.py] and of the setup
    script [cortex/__init__.py].

    Theano is a symbolic runtime: the methods of [Helmholtz] do not compute
    numbers, they build expression graphs.  The embedding therefore has
    three layers:

    - [Py]: the fragment of Python the code relies on (exceptions, [None],
      dictionaries with string keys, list slices);
    - [Graph]: the expression graphs built by the model, as a syntax tree
      with one node per Theano operation or component method;
    - [Helmholtz], [Numeric], [Setup]: the code itself.

    Code of the repository that lives outside the two modules (the
    [Layer] base class, [distributions.py], [mlp.py], [utils/tools.py],
    the dataset fetchers) is taken as a parameter, see [Externals] and
    [Setup.env]. *)

From Stdlib Require Import ZArith String List Reals Lra Lia.
From stdpp Require Import base option list gmap strings.

#[local] Set Warnings "-register-all".
#[local] Open Scope string_scope.
#[local] Open Scope list_scope.
#[local] Open Scope Z_scope.

(* ===================================================================== *)
(** ** Python values, exceptions and slices *)
(* ===================================================================== *)

Module Py.

(** The exceptions the two modules raise or catch.  [OtherError] stands
    for anything raised inside code that is not part of the modules. *)
Inductive exn : Type :=
  | ValueError (msg : string)
  | KeyError (key : string)
  | TypeError (msg : string)
  | AttributeError (attr : string)
  | AssertionError
  | HTTPError
  | OtherError (what : string).

(** A computation that returns or raises. *)
Inductive result (A : Type) : Type :=
  | Ok (a : A)
  | Raise (e : exn).
Arguments Ok {A} a.
Arguments Raise {A} e.

Definition bind {A B : Type} (c : result A) (k : A -> result B) : result B :=
  match c with
  | Ok a => k a
  | Raise e => Raise e
  end.

Definition returns {A : Type} (c : result A) : Prop := exists a, c = Ok a.

(** [assert b] *)
Definition assert (b : bool) : result unit :=
  if b then Ok tt else Raise AssertionError.

End Py.

Import Py.

(** [result] is a monad; stdpp's [x ← c; k] sequences statements and
    stops at the first exception. *)
#[export] Instance result_ret : MRet result := @Ok.
#[export] Instance result_bind : MBind result := fun A B k c => Py.bind c k.
#[export] Instance result_fmap : FMap result :=
  fun A B f c => Py.bind c (fun a => Ok (f a)).

(* ===================================================================== *)
(** ** Expression graphs *)
(* ===================================================================== *)

Module Graph.

(** The sub-models a [Helmholtz] instance delegates to. *)
Inductive component : Type :=
  | Posterior                (* self.posterior *)
  | Conditional              (* self.conditional *)
  | Prior                    (* self.prior *)
  | PosteriorDistribution    (* self.posterior.distribution *)
  | ConditionalDistribution. (* self.conditional.distribution *)

(** The methods of the sub-models the class calls. *)
Inductive method : Type :=
  | feed | step_feed | get_center
  | neg_log_prob | entropy | kl_divergence | step_kl_divergence
  | split_prob | get_prob
  | sample | step_sample | prototype_samples
  | generate_latent_pair | visualize.

(** A node of the graph.  Nodes are compared structurally. *)
Inductive tensor : Type :=
  | Var (name : string)                       (* input or shared variable *)
  | IntLit (n : Z)                            (* Python int *)
  | FloatLit (n : Z)                          (* the float literal n. *)
  | Shape (t : tensor) (i : Z)                (* t.shape[i] *)
  | Tuple (ts : list tensor)                  (* (a, b, c) *)
  | Item (t : tensor) (i : Z)                 (* t[i], also a, b = t *)
  | NewAxis (t : tensor)                      (* t[None, :, :] *)
  | Splat (t : tensor)                        (* *t in an argument list *)
  | MCall (c : component) (m : method) (args : list tensor)
  | Neg (a : tensor)
  | Add (a b : tensor)
  | Sub (a b : tensor)
  | Mul (a b : tensor)
  | Div (a b : tensor)
  | Pow (a b : tensor)
  | Sum (a : tensor) (axes : list Z)          (* a.sum(axes) *)
  | Mean (a : tensor) (axis : option Z) (keepdims : bool)
  | Max (a : tensor) (axis : Z) (keepdims : bool)
  | Log (a : tensor)
  | Exp (a : tensor)
  | ZerosLike (a : tensor)
  | LogSumExp (a : tensor) (axis : Z)         (* tools.log_sum_exp *)
  | GetWTilde (a : tensor).                   (* tools.get_w_tilde *)

End Graph.

Import Graph.

(* ===================================================================== *)
(** ** The objects of the model *)
(* ===================================================================== *)

(** The four prior classes [Helmholtz.__init__] knows, and everything
    else.  [isinstance] is what the code tests, so an object counts with
    the class it is an instance of. *)
Inductive dist_class : Type :=
  | Binomial
  | Gaussian
  | Logistic
  | Laplace
  | OtherDistribution (cls : string).

(** A [Distribution] object: the attributes the class reads. *)
Record distribution : Type := {
  dist_cls : dist_class;
  dist_dim : Z;                       (* .dim *)
  dist_name : string;                 (* .name *)
  dist_has_kl : bool;                 (* .has_kl *)
  dist_n_params : Z;                  (* .n_params *)
  dist_params : list tensor           (* .get_params() *)
}.

(** An [MLP] (or [DARN]) object: the attributes the class reads. *)
Record mlp : Type := {
  mlp_name : string;
  mlp_dim_in : Z;
  mlp_dim_out : Z;
  mlp_distribution : option distribution;   (* .distribution, may be None *)
  mlp_n_params : Z;
  mlp_params : list tensor;                 (* .get_params() *)
  mlp_decay_params : gmap string tensor     (* .get_decay_params() *)
}.

(** Values that travel through keyword arguments. *)
Inductive pyval : Type :=
  | PyNone
  | PyInt (n : Z)
  | PyStr (s : string)
  | PyList (l : list pyval)
  | PyDict (d : gmap string pyval)
  | PyDistribution (d : distribution).

Abbreviation kwargs := (gmap string pyval).

Module PyVal.

Definition is_none (v : pyval) : bool :=
  match v with PyNone => true | _ => false end.

(** [v == s] for a string literal [s]. *)
Definition eq_str (v : pyval) (s : string) : bool :=
  match v with PyStr s' => bool_decide (s' = s) | _ => false end.

(** [d.get(k, None)] on a dictionary *)
Definition dict_get (d : gmap string pyval) (k : string) : pyval :=
  default PyNone (d !! k).

(** [v.get(k, None)]: only dictionaries have the method. *)
Definition get (v : pyval) (k : string) : result pyval :=
  match v with
  | PyDict d => Ok (dict_get d k)
  | _ => Raise (AttributeError "get")
  end.

(** [v[k]] for a string [k] *)
Definition subscript (v : pyval) (k : string) : result pyval :=
  match v with
  | PyDict d =>
      match d !! k with
      | Some x => Ok x
      | None => Raise (KeyError k)
      end
  | _ => Raise (TypeError "not subscriptable by a string")
  end.

(** [v[k] = x] for a string [k] *)
Definition setitem (v : pyval) (k : string) (x : pyval) : result pyval :=
  match v with
  | PyDict d => Ok (PyDict (<[k := x]> d))
  | _ => Raise (TypeError "does not support item assignment")
  end.

(** A value used as a dictionary key.  The maps of this model have
    string keys, as the keyword dictionaries of the package do; Python
    takes any hashable key, so what is stated of an assignment under a
    computed key is stated for string keys. *)
Definition as_key (v : pyval) : result string :=
  match v with
  | PyStr s => Ok s
  | _ => Raise (TypeError "key is not a string")
  end.

(** [f( **v )] *)
Definition as_kwargs (v : pyval) : result (gmap string pyval) :=
  match v with
  | PyDict d => Ok d
  | _ => Raise (TypeError "argument after ** must be a mapping")
  end.

(** The number of rounds of [for _ in v]. *)
Definition iterations (v : pyval) : result nat :=
  match v with
  | PyList l => Ok (length l)
  | PyDict d => Ok (size d)
  | PyStr s => Ok (String.length s)
  | _ => Raise (TypeError "not iterable")
  end.

(** Python's slice [l[start:stop]], negative bounds counting from the
    end and all bounds clipped to the list. *)
Definition clip (len i : Z) : Z :=
  if i <? 0 then Z.max 0 (i + len) else Z.min i len.

Definition slice {A : Type} (l : list A) (start stop : Z) : list A :=
  let len := Z.of_nat (length l) in
  let lo := clip len start in
  let hi := clip len stop in
  take (Z.to_nat (hi - lo)) (drop (Z.to_nat lo) l).

End PyVal.

(* ===================================================================== *)
(** ** [cortex/models/helmholtz.py] *)
(* ===================================================================== *)

Module Helmholtz.

(** An instance of [class Helmholtz(Layer)]. *)
Record helmholtz : Type := {
  posterior : mlp;
  conditional : mlp;
  prior : distribution;
  dim_h : Z;
  name : string;                    (* assigned by Layer.__init__ *)
  params : gmap string tensor;      (* the OrderedDict of set_params *)
  attrs : gmap string pyval         (* whatever init_weights and
                                       init_rngs store on the instance *)
}.

(** [_components = ['posterior', 'conditional', 'prior']] *)
Definition _components : list string :=
  ["posterior"; "conditional"; "prior"].

(** What [PC] is bound to in [mlp_factory]: the class found by
    [resolve_prior], or the [Distribution] instance passed as [prior]. *)
Inductive prior_callable : Type :=
  | PriorClass (c : dist_class)
  | PriorInstance (d : distribution).

(** What [RC] and [GC] are bound to in [mlp_factory]. *)
Inductive net_class : Type :=
  | DARN
  | Resolved (cls : string).

(** One element of the list [unpack] returns. *)
Inductive model : Type :=
  | ModelHelmholtz (m : helmholtz)
  | ModelMLP (m : mlp)
  | ModelDistribution (d : distribution).

(** Code of the package the module imports and calls. *)
Class Externals : Type := {
  (* distributions.resolve *)
  resolve_prior : pyval -> result dist_class;
  (* PC(dim_h) *)
  call_prior : prior_callable -> pyval -> result distribution;
  (* mlp.resolve *)
  resolve_mlp : pyval -> result net_class;
  (* RC.factory( **rec_args ), GC.factory( **gen_args ) *)
  net_factory : net_class -> kwargs -> result mlp;
  (* tools.init_weights(self, **kwargs), tools.init_rngs(self, **kwargs) *)
  init_weights : helmholtz -> kwargs -> result (helmholtz * kwargs);
  init_rngs : helmholtz -> kwargs -> result (helmholtz * kwargs);
  (* Layer.__init__(self, name=name) *)
  Layer_init : helmholtz -> string -> result helmholtz;
  (* Layer.set_tparams and the set_tparams of the components *)
  Layer_set_tparams : helmholtz -> gmap string tensor;
  mlp_set_tparams : mlp -> gmap string tensor;
  dist_set_tparams : distribution -> gmap string tensor
}.

Section Code.
Context {E : Externals}.

(** *** [Helmholtz.__init__] *)

(** The [if name is None:] block, lines 112-122.  The message shows
    [type(prior)], here by the name of the class. *)
Definition default_name (prior : distribution) : result string :=
  match dist_cls prior with
  | Binomial => Ok "sbn"
  | Gaussian => Ok "gbn"
  | Logistic => Ok "lbn"
  | Laplace => Ok "labn"
  | OtherDistribution cls =>
      Raise (ValueError ("Prior type " +:+ cls +:+ " not supported"))
  end.

(** The attribute assignments, lines 107-110. *)
Definition assign_components (posterior conditional : mlp)
    (prior : distribution) : helmholtz :=
  {| posterior := posterior;
     conditional := conditional;
     prior := prior;
     dim_h := dist_dim prior;
     name := "";
     params := ∅;
     attrs := ∅ |}.

Definition __init__ (posterior conditional : mlp) (prior : distribution)
    (name : option string) (kw : kwargs) : result helmholtz :=
  let self := assign_components posterior conditional prior in
  name ← match name with
         | None => default_name prior
         | Some n => Ok n
         end;
  '(self, kw) ← init_weights self kw;
  '(self, kw) ← init_rngs self kw;
  Layer_init self name.

(** *** [Helmholtz.mlp_factory] *)

(** [if args is None: args = dict()] *)
Definition args_or_empty (v : pyval) : pyval :=
  if PyVal.is_none v then PyDict ∅ else v.

(** [isinstance(prior, Distribution)] chooses between the instance
    and [resolve_prior]. *)
Definition prior_class (prior : pyval) : result prior_callable :=
  match prior with
  | PyDistribution d => Ok (PriorInstance d)
  | _ => PriorClass <$> resolve_prior prior
  end.

(** One round of the loop of the 'dag' branch:
    [gen_args['graph']['outs'][output_name] = dict(dim=..., distribution=...)] *)
Definition dag_assign (output_name dim_out data_distribution : pyval)
    (gen_args : pyval) : result pyval :=
  let entry := PyDict (<["dim" := dim_out]>
                       (<["distribution" := data_distribution]> ∅)) in
  graph ← PyVal.subscript gen_args "graph";
  outs ← PyVal.subscript graph "outs";
  key ← PyVal.as_key output_name;
  outs ← PyVal.setitem outs key entry;
  graph ← PyVal.setitem graph "outs" outs;
  PyVal.setitem gen_args "graph" graph.

Fixpoint dag_loop (rounds : nat) (output_name dim_out data_distribution : pyval)
    (gen_args : pyval) : result pyval :=
  match rounds with
  | O => Ok gen_args
  | S n =>
      gen_args ← dag_assign output_name dim_out data_distribution gen_args;
      dag_loop n output_name dim_out data_distribution gen_args
  end.

Definition mlp_factory (dim_in dim_h dim_out data_distribution : pyval)
    (prior rec_args gen_args : pyval)
    : result (mlp * mlp * distribution) :=
  let rec_args := args_or_empty rec_args in
  let gen_args := args_or_empty gen_args in
  (* Forming the prior model. *)
  prior ←
    (if PyVal.is_none prior then
       d ← PyVal.get rec_args "distribution";
       if PyVal.is_none d then Ok (PyStr "binomial")
       else PyVal.subscript rec_args "distribution"
     else Ok prior);
  PC ← prior_class prior;
  prior_model ← call_prior PC dim_h;
  (* Forming the recognition network, aka posterior. *)
  RC ← PyVal.get rec_args "type" ≫= resolve_mlp;
  input_name ← PyVal.get rec_args "input_layer";
  d ← PyVal.get rec_args "distribution";
  rec_args ←
    (if PyVal.is_none d then PyVal.setitem rec_args "distribution" prior
     else Ok rec_args);
  rec_args ← PyVal.setitem rec_args "dim_in" dim_in;
  rec_args ← PyVal.setitem rec_args "dim_out" dim_h;
  posterior ← PyVal.as_kwargs rec_args ≫= net_factory RC;
  (* Forming the generative network, aka conditional. *)
  output_name ← PyVal.subscript gen_args "output";
  gen_args ← PyVal.setitem gen_args "dim_in" dim_h;
  t ← PyVal.get gen_args "type";
  GC ← (if PyVal.eq_str t "darn" then Ok DARN else resolve_mlp t);
  gen_args ←
    (if PyVal.eq_str t "dag" then
       graph ← PyVal.subscript gen_args "graph";
       outputs ← PyVal.subscript graph "outputs";
       rounds ← PyVal.iterations outputs;
       dag_loop rounds output_name dim_out data_distribution gen_args
     else
       gen_args ← PyVal.setitem gen_args "dim_out" dim_out;
       PyVal.setitem gen_args "distribution" data_distribution);
  conditional ← PyVal.as_kwargs gen_args ≫= net_factory GC;
  _ ← assert (bool_decide (is_Some (mlp_distribution conditional)));
  _ ← assert (bool_decide (is_Some (mlp_distribution posterior)));
  Ok (posterior, conditional, prior_model).

(** *** [Helmholtz.factory] *)

(** Binding [**kwargs] to the keyword parameters of [mlp_factory]:
    [prior], [rec_args] and [gen_args], each [None] by default; any
    other keyword is a [TypeError]. *)
Definition mlp_factory_keywords : gset string :=
  {["prior"; "rec_args"; "gen_args"]}.

Definition factory (dim_in dim_h dim_out : pyval)
    (data_distribution : option pyval) (kw : kwargs)
    : result helmholtz :=
  let data_distribution := default (PyStr "binomial") data_distribution in
  let dim_out := if PyVal.is_none dim_out then dim_in else dim_out in
  _ ← assert (negb (PyVal.is_none data_distribution));
  '(posterior, conditional, prior) ←
    (if bool_decide (dom kw ⊆ mlp_factory_keywords) then
       mlp_factory dim_in dim_h dim_out data_distribution
         (PyVal.dict_get kw "prior") (PyVal.dict_get kw "rec_args")
         (PyVal.dict_get kw "gen_args")
     else Raise (TypeError "mlp_factory() got an unexpected keyword argument"));
  __init__ posterior conditional prior None ∅.

(** *** [unpack] *)

(** The list [[model.posterior, model.conditional, model.prior]]. *)
Definition component_models (m : helmholtz) : list model :=
  [ModelMLP (posterior m); ModelMLP (conditional m);
   ModelDistribution (prior m)].

(** The result comes with what was printed. *)
Definition unpack (dim_in dim_h dim_out prior data_distribution
    rec_args gen_args : pyval) (model_args : kwargs)
    : list string * result (list model * kwargs * pyval) :=
  if PyVal.is_none data_distribution then
    ([], Raise (ValueError
      "`data_distribution` must be set. Pass `data_distribution` as a keyword argument."))
  else
    let models : list model := [] in
    let stdout := ["Forming Helmholtz machine"] in
    (stdout,
     model ← factory dim_in dim_h PyNone (Some data_distribution)
               (<["prior" := prior]>
                (<["rec_args" := rec_args]>
                 (<["gen_args" := gen_args]> ∅)));
     let models := models ++ [ModelHelmholtz model] in
     let models := models ++ component_models model in
     Ok (models, model_args, PyNone)).

(** *** Parameters *)

(** [set_params]: a fresh [params] and the names of the components. *)
Definition set_params (self : helmholtz) : helmholtz :=
  let p := prior self in
  let q := posterior self in
  let c := conditional self in
  {| posterior :=
       {| mlp_name := name self +:+ "_posterior";
          mlp_dim_in := mlp_dim_in q;
          mlp_dim_out := mlp_dim_out q;
          mlp_distribution := mlp_distribution q;
          mlp_n_params := mlp_n_params q;
          mlp_params := mlp_params q;
          mlp_decay_params := mlp_decay_params q |};
     conditional :=
       {| mlp_name := name self +:+ "_conditional";
          mlp_dim_in := mlp_dim_in c;
          mlp_dim_out := mlp_dim_out c;
          mlp_distribution := mlp_distribution c;
          mlp_n_params := mlp_n_params c;
          mlp_params := mlp_params c;
          mlp_decay_params := mlp_decay_params c |};
     prior :=
       {| dist_cls := dist_cls p;
          dist_dim := dist_dim p;
          dist_name := name self +:+ "_" +:+ dist_name p;
          dist_has_kl := dist_has_kl p;
          dist_n_params := dist_n_params p;
          dist_params := dist_params p |};
     dim_h := dim_h self;
     name := name self;
     params := ∅;
     attrs := attrs self |}.

(** [tparams.update(d)]: the entries of [d] win. *)
Definition update (tparams d : gmap string tensor) : gmap string tensor :=
  d ∪ tparams.

Definition set_tparams (self : helmholtz) : gmap string tensor :=
  let tparams := Layer_set_tparams self in
  let tparams := update tparams (mlp_set_tparams (posterior self)) in
  let tparams := update tparams (mlp_set_tparams (conditional self)) in
  let tparams := update tparams (dist_set_tparams (prior self)) in
  tparams.

Definition get_params (self : helmholtz) : list tensor :=
  dist_params (prior self)
    ++ mlp_params (conditional self)
    ++ mlp_params (posterior self).

Definition get_prior_params (self : helmholtz) (params : list tensor)
    : list tensor :=
  PyVal.slice params 0 (dist_n_params (prior self)).

Definition get_posterior_params (self : helmholtz) (params : list tensor)
    : list tensor :=
  let start := dist_n_params (prior self) + mlp_n_params (conditional self) in
  let stop := start + mlp_n_params (posterior self) in
  PyVal.slice params start stop.

(** *** Extra functions *)

(** [self.posterior.distribution.m(...)] and
    [self.conditional.distribution.m(...)]: the attribute lookup
    fails on [None]. *)
Definition distribution_of (net : mlp) (m : string) : result distribution :=
  match mlp_distribution net with
  | Some d => Ok d
  | None => Raise (AttributeError m)
  end.

Definition sample_from_prior (self : helmholtz) (n_samples : Z)
    : tensor * tensor :=
  let s := MCall Prior sample [IntLit n_samples] in
  let h := Item s 0 in
  let updates := Item s 1 in
  (MCall Conditional feed [h], updates).

Definition generate_from_latent (self : helmholtz) (h : tensor) : tensor :=
  let py := MCall Conditional feed [h] in
  let center := MCall Conditional get_center [py] in
  center.

Definition visualize_latents (self : helmholtz) : result tensor :=
  let pair := MCall Prior generate_latent_pair [] in
  let h0 := Item pair 0 in
  let h := Item pair 1 in
  let p0 := MCall Conditional feed [h0] in
  let p := MCall Conditional feed [h] in
  _ ← distribution_of (conditional self) "visualize";
  Ok (MCall ConditionalDistribution visualize [p0; p]).

(** *** Misc *)

Definition get_center (self : helmholtz) (p : tensor) : tensor :=
  MCall Conditional get_center [p].

(** The graph of [log_marginal].  The [assert] on [ndim] compares
    ranks the runtime knows; it is not part of the graph. *)
Definition log_marginal (self : helmholtz) (y h py q : tensor) : tensor :=
  let log_py_h := Neg (MCall Conditional neg_log_prob [y; py]) in
  let log_ph := Neg (MCall Prior neg_log_prob [h]) in
  let log_qh := Neg (MCall Posterior neg_log_prob [h; q]) in
  let log_p := Sub (Add log_py_h log_ph) log_qh in
  let log_p_max := Max log_p 0 true in
  let w := Exp (Sub log_p log_p_max) in
  Mean (Add (Log (Mean w (Some 0) true)) log_p_max) None false.

Definition get_decay_params (self : helmholtz) : gmap string tensor :=
  let decay_params : gmap string tensor := ∅ in
  let decay_params := update decay_params (mlp_decay_params (posterior self)) in
  let decay_params := update decay_params (mlp_decay_params (conditional self)) in
  decay_params.

Definition p_y_given_h (self : helmholtz) (h : tensor) (params : list tensor)
    : tensor :=
  let start := dist_n_params (prior self) in
  let stop := start + mlp_n_params (conditional self) in
  let params := PyVal.slice params start stop in
  MCall Conditional step_feed (h :: params).

Definition init_inference_samples (self : helmholtz) (size : tensor)
    : result tensor :=
  _ ← distribution_of (posterior self) "prototype_samples";
  Ok (MCall PosteriorDistribution prototype_samples [size]).

(** *** [Helmholtz.__call__] *)

(** The four values of [return results, samples, constants,
    theano.OrderedUpdates()]; the updates are empty. *)
Record outputs : Type := {
  results : gmap string tensor;
  samples : gmap string tensor;
  constants : list tensor;
  updates : list (tensor * tensor)
}.

(** [log_py_h + log_ph - log_qhk], the log-ratio of the samples. *)
Definition log_ratio (log_py_h log_ph log_qhk : tensor) : tensor :=
  Sub (Add log_py_h log_ph) log_qhk.

Definition __call__ (self : helmholtz) (x y : tensor) (qk : option tensor)
    (n_posterior_samples : Z)
    (pass_gradients reweight reweight_gen_only sleep_phase : bool)
    : result outputs :=
  let constants : list tensor := [] in
  let results : gmap string tensor := ∅ in
  let q0 := MCall Posterior feed [x] in
  let '(qk, constants) :=
    match qk with
    | None => (q0, constants)
    | Some qk =>
        if negb pass_gradients then (qk, constants ++ [qk])
        else (qk, constants)
    end in
  let size :=
    Tuple [IntLit n_posterior_samples; Shape y 0; IntLit (dim_h self)] in
  r ← init_inference_samples self size;
  qdist ← distribution_of (posterior self) "step_sample";
  let h := MCall PosteriorDistribution step_sample [r; NewAxis qk] in
  let py_h := MCall Conditional feed [h] in

  let log_py_h := Neg (MCall Conditional neg_log_prob [NewAxis y; py_h]) in
  let log_ph := Neg (MCall Prior neg_log_prob [h]) in
  let log_qh0 := Neg (MCall Posterior neg_log_prob [h; NewAxis q0]) in
  let log_qhk := Neg (MCall Posterior neg_log_prob [h; NewAxis qk]) in
  let prior_entropy := MCall Prior entropy [] in
  let q_entropy := MCall Posterior entropy [qk] in

  (* Log marginal *)
  let log_p :=
    Sub (LogSumExp (log_ratio log_py_h log_ph log_qhk) 0)
        (Log (IntLit n_posterior_samples)) in

  let recon_term := Neg log_py_h in

  (* Some prior distributions have a tractable KL divergence. *)
  let '(results, KL_term) :=
    if dist_has_kl (prior self) && negb reweight && negb reweight_gen_only
    then
      let KL_qk_p := MCall Prior kl_divergence [qk] in
      (<["KL(q_k||p)" := KL_qk_p]> results, KL_qk_p)
    else
      let prior_energy := Neg log_ph in
      (<["-log p(h)" := Mean prior_energy None false]> results,
       Sub prior_energy q_entropy) in

  (* If we pass the gradients we don't want to include the KL(q_k||q_0) *)
  let '(results, posterior_term) :=
    if negb pass_gradients then
      if dist_has_kl qdist && negb reweight && negb reweight_gen_only
      then
        let KL_qk_q0 :=
          MCall PosteriorDistribution step_kl_divergence
            [qk; Splat (MCall PosteriorDistribution split_prob [q0])] in
        (<["KL(q_k||q_0)" := KL_qk_q0]> results, KL_qk_q0)
      else
        (<["-log q(h)" := Neg (Mean log_qh0 None false)]> results,
         Neg log_qh0)
    else (results, ZerosLike log_qh0) in

  let lower_bound := Neg (Mean (Add recon_term KL_term) None false) in

  let w_tilde := GetWTilde (log_ratio log_py_h log_ph log_qhk) in
  let results :=
    <["log ESS" :=
        Mean (Log (Div (FloatLit 1) (Sum (Pow w_tilde (IntLit 2)) [0])))
             None false]> results in
  '(cost, constants) ←
    (if sleep_phase then
       r ← init_inference_samples self size;
       let h_s :=
         MCall Prior step_sample
           [r; MCall Prior get_prob (dist_params (prior self))] in
       let py_h_s := MCall Conditional feed [h_s] in
       let y_s := Item (MCall Conditional sample [py_h_s]) 0 in
       let constants := constants ++ [y_s] in
       let q0_s := MCall Posterior feed [Item y_s 0] in
       let log_qh0 := Neg (MCall Posterior neg_log_prob [h_s; q0_s]) in
       let cost :=
         Neg (Add (Sum (Mul w_tilde (Add log_py_h log_ph)) [0; 1])
                  (Mean (Sum log_qh0 [1]) (Some 0) false)) in
       Ok (cost, constants ++ [w_tilde])
     else if reweight then
       let cost :=
         Neg (Sum (Mul w_tilde (Add (Add log_py_h log_ph) log_qh0)) [0; 1]) in
       Ok (cost, constants ++ [w_tilde])
     else if reweight_gen_only then
       let cost :=
         Neg (Add (Sum (Mul w_tilde (Add log_py_h log_ph)) [0; 1])
                  (Mean (Sum log_qh0 [1]) (Some 0) false)) in
       Ok (cost, constants ++ [w_tilde])
     else
       let cost :=
         Mean (Sum (Add (Add recon_term KL_term) posterior_term) [1])
              (Some 0) false in
       Ok (cost, constants));

  let results :=
    <["-log p(x|h)" := Mean recon_term None false]>
    (<["-log p(x)" := Neg (Mean log_p (Some 0) false)]>
    (<["H(p)" := prior_entropy]>
    (<["H(q)" := Mean q_entropy (Some 0) false]>
    (<["lower_bound" := lower_bound]>
    (<["cost" := cost]> results))))) in

  let samples : gmap string tensor :=
    <["py" := py_h]>
    (<["batch_energies" := recon_term]>
    (<["w_tilde" := w_tilde]> ∅)) in

  Ok {| results := results; samples := samples;
        constants := constants; updates := [] |}.

End Code.

End Helmholtz.

(* ===================================================================== *)
(** ** The log marginal on numbers *)
(* ===================================================================== *)

(** What the graphs of [log_marginal] and of the log marginal of
    [__call__] compute, with the entries of a tensor read as real
    numbers.  The log-ratios have shape (samples, batch); a matrix is
    given by its columns, one per data point, so that a reduction along
    [axis=0] acts inside each column. *)
Module Numeric.

#[local] Open Scope R_scope.

Definition sum (v : list R) : R := fold_right Rplus 0 v.

Definition mean (v : list R) : R := sum v / INR (length v).

(** [T.max]; Theano refuses an empty axis, the value there is a filler. *)
Definition max (v : list R) : R :=
  match v with
  | [] => 0
  | a :: v' => fold_right Rmax a v'
  end.

(** Lines 363-367 of [Helmholtz.log_marginal] for one data point:
    [log_p_max], [w] and [T.log(w.mean(axis=0)) + log_p_max]. *)
Definition log_marginal_column (log_p : list R) : R :=
  let log_p_max := max log_p in
  let w := map (fun v => exp (v - log_p_max)) log_p in
  ln (mean w) + log_p_max.

(** ... and the final [.mean()] over the batch. *)
Definition log_marginal (log_p : list (list R)) : R :=
  mean (map log_marginal_column log_p).

(** Modelled from the spec: [tools.log_sum_exp] is not part of the two
    modules; [log_sum_exp(x, axis=0)] is the logarithm of the sum of
    the exponentials, the [log sum_i] of the docstring of
    [log_marginal]. *)
Definition log_sum_exp (v : list R) : R := ln (sum (map exp v)).

(** Lines 454-455 of [Helmholtz.__call__] for one data point. *)
Definition log_p (log_ratio : list R) (n_posterior_samples : Z) : R :=
  log_sum_exp log_ratio - ln (IZR n_posterior_samples).

(** [results['-log p(x)']], line 511. *)
Definition neg_log_px (log_ratio : list (list R)) (n_posterior_samples : Z) : R :=
  - mean (map (fun c => log_p c n_posterior_samples) log_ratio).

End Numeric.

(* ===================================================================== *)
(** ** [cortex/__init__.py]: the setup script *)
(* ===================================================================== *)

Module Setup.

(** What the script does to the outside, in order. *)
Inductive event : Type :=
  | SetCompleterDelims (s : string)
  | ParseAndBind (s : string)
  | SetCompleter
  | Print (s : string)
  | RawInput (prompt : string)
  | WritePathConf (data_path out_path : string)
  | QueryYesNo (question : string)
  | FetchBasicData
  | FetchNeuroimagingData
  | WriteDefaultTheanorc.

(** The outside: the user, the file system and the network. *)
Record env : Type := {
  get_paths : result (gmap string string);
  raw_input : string -> string;
  expanduser : string -> string;
  isdir : string -> bool;
  isfile : string -> bool;
  join : string -> string -> string;
  query_yes_no : string -> bool;
  fetch_basic_data : result unit;
  fetch_neuroimaging_data : result unit
}.

(** A statement: it extends the trace, and returns or raises. *)
Definition prog (A : Type) : Type := list event -> list event * result A.

Definition ret {A : Type} (a : A) : prog A := fun t => (t, Ok a).

Definition seq {A B : Type} (c : prog A) (k : A -> prog B) : prog B :=
  fun t =>
    match c t with
    | (t', Ok a) => k a t'
    | (t', Raise e) => (t', Raise e)
    end.

Definition emit (e : event) : prog unit := fun t => (t ++ [e], Ok tt).

Definition raise {A : Type} (e : exn) : prog A := fun t => (t, Raise e).

(** The outcome of a call into the outside, after the call is traced. *)
Definition call {A : Type} (e : event) (r : result A) : prog A :=
  fun t => (t ++ [e], r).

(** [try: c except E: h], [handles] telling the exceptions of class [E]. *)
Definition try_except {A : Type} (c : prog A) (handles : exn -> bool)
    (h : prog A) : prog A :=
  fun t =>
    match c t with
    | (t', Raise e) => if handles e then h t' else (t', Raise e)
    | r => r
    end.

Definition is_ValueError (e : exn) : bool :=
  match e with ValueError _ => true | _ => false end.

Definition is_HTTPError (e : exn) : bool :=
  match e with HTTPError => true | _ => false end.

#[export] Instance prog_ret : MRet prog := @ret.
#[export] Instance prog_bind : MBind prog := fun A B k c => seq c k.

(** [raw_input(prompt) or default] / [raw_input(prompt)] *)
Definition ask_path (w : env) (what : string) (known : option string)
    : prog string :=
  match known with
  | Some d =>
      let prompt := what +:+ "[" +:+ d +:+ "] " in
      _ ← emit (RawInput prompt);
      let s := raw_input w prompt in
      mret (if bool_decide (s = "") then d else s)
  | None =>
      _ ← emit (RawInput what);
      mret (raw_input w what)
  end.

(** The string [' \t\n;'] *)
Definition completer_delims : string :=
  " " +:+ String (Ascii.ascii_of_nat 9)
    (String (Ascii.ascii_of_nat 10) ";").

(** Lines 20-57: the prompts for the two paths. *)
Definition configure_paths (w : env) : prog unit :=
  _ ← emit (SetCompleterDelims completer_delims);
  _ ← emit (ParseAndBind "tab: complete");
  _ ← emit SetCompleter;
  _ ← emit (Print "Welcome to Cortex: a deep learning toolbox for neuroimaging");
  _ ← emit (Print ("Cortex requires that you enter some paths for "
        +:+ "default dataset and output directories. These "
        +:+ "can be changed at any time and are customizable "
        +:+ "via the ~/.cortexrc file."));
  path_dict ← try_except (fun t => (t, get_paths w)) is_ValueError (mret ∅);
  data_path ← ask_path w "Default data path: " (path_dict !! "$data");
  let data_path := expanduser w data_path in
  if negb (isdir w data_path) then
    raise (ValueError ("path " +:+ data_path
                       +:+ " does not exist. Please create it."))
  else
  out_path ← ask_path w "Default output path: " (path_dict !! "$outs");
  let out_path := expanduser w out_path in
  if negb (isdir w out_path) then
    raise (ValueError ("path " +:+ out_path
                       +:+ " does not exist. Please create it."))
  else
  _ ← emit (WritePathConf data_path out_path);
  emit (Print ("Cortex demos require additional data that is not necessary for "
        +:+ "general use of the Cortex as a package."
        +:+ "This includes MNIST, Caltech Silhoettes, and some UCI dataset "
        +:+ "samples.")).

Definition basic_question : string := "Download basic dataset? ".
Definition neuroimaging_question : string := "Download neuroimaging dataset? ".
Definition basic_warning : string := "Error: basic dataset not found.".
Definition neuroimaging_warning : string :=
  "Error: neuroimaging dataset not found.".
Definition neuroimaging_notice : string :=
  "Cortex also requires neuroimaging data for the neuroimaging data "
  +:+ "for the neuroimaging demos. These are large and can be skipped.".

(** Lines 78-82: the [.theanorc] step. *)
Definition theanorc (w : env) : prog unit :=
  let home := expanduser w "~" in
  let trc := join w home ".theanorc" in
  if negb (isfile w trc) then
    _ ← emit (Print ("No " +:+ trc +:+ " found, adding"));
    emit WriteDefaultTheanorc
  else mret tt.

(** Lines 59-82: the two downloads and the [.theanorc] step. *)
Definition downloads (w : env) : prog unit :=
  _ ← emit (QueryYesNo basic_question);
  _ ← (if query_yes_no w basic_question then
         try_except (call FetchBasicData (fetch_basic_data w))
           is_HTTPError (emit (Print basic_warning))
       else mret tt);
  _ ← emit (Print neuroimaging_notice);
  _ ← emit (QueryYesNo neuroimaging_question);
  _ ← (if query_yes_no w neuroimaging_question then
         try_except (call FetchNeuroimagingData (fetch_neuroimaging_data w))
           is_HTTPError (emit (Print neuroimaging_warning))
       else mret tt);
  theanorc w.

Definition main (w : env) : prog unit :=
  _ ← configure_paths w;
  downloads w.

End Setup.

(* ===================================================================== *)
(** ** A small implementation of the imported code *)
(* ===================================================================== *)

(** One way the imported functions can behave, used to run the model on
    concrete inputs. *)
Module Sample.
Import Helmholtz.

Definition class_of_string (s : string) : dist_class :=
  if bool_decide (s = "binomial") then Binomial
  else if bool_decide (s = "gaussian") then Gaussian
  else if bool_decide (s = "logistic") then Logistic
  else if bool_decide (s = "laplace") then Laplace
  else OtherDistribution s.

Definition make_distribution (c : dist_class) (dim : Z) : distribution :=
  {| dist_cls := c; dist_dim := dim; dist_name := "prior";
     dist_has_kl := match c with Gaussian => true | _ => false end;
     dist_n_params := 1; dist_params := [Var "z"] |}.

Definition make_mlp (dim_in dim_out : Z) (d : option distribution) : mlp :=
  {| mlp_name := "MLP"; mlp_dim_in := dim_in; mlp_dim_out := dim_out;
     mlp_distribution := d; mlp_n_params := 2;
     mlp_params := [Var "W"; Var "b"]; mlp_decay_params := ∅ |}.

Definition sample_net_factory (c : net_class) (args : kwargs) : result mlp :=
  match args !! "dim_in", args !! "dim_out" with
  | Some (PyInt a), Some (PyInt b) =>
      Ok (make_mlp a b
            match args !! "distribution" with
            | Some (PyStr s) => Some (make_distribution (class_of_string s) b)
            | Some (PyDistribution d) => Some d
            | _ => None
            end)
  | _, _ => Raise (OtherError "factory")
  end.

Definition with_name (self : helmholtz) (n : string) : helmholtz :=
  {| posterior := posterior self; conditional := conditional self;
     prior := prior self; dim_h := dim_h self; name := n;
     params := params self; attrs := attrs self |}.

#[export] Instance externals : Externals := {|
  resolve_prior v :=
    match v with
    | PyStr s => Ok (class_of_string s)
    | _ => Raise (OtherError "resolve")
    end;
  call_prior PC dim :=
    match PC, dim with
    | PriorClass c, PyInt n => Ok (make_distribution c n)
    | _, _ => Raise (OtherError "call")
    end;
  resolve_mlp v :=
    match v with
    | PyNone => Ok (Resolved "MLP")
    | PyStr s => Ok (Resolved s)
    | _ => Raise (OtherError "resolve")
    end;
  net_factory := sample_net_factory;
  init_weights self kw := Ok (self, kw);
  init_rngs self kw := Ok (self, kw);
  Layer_init self n := Ok (set_params (with_name self n));
  Layer_set_tparams _ := ∅;
  mlp_set_tparams _ := ∅;
  dist_set_tparams _ := ∅
|}.

(** A stochastic network with a multinomial prior, and the
    arguments of a small binomial model. *)
Definition multinomial : distribution :=
  make_distribution (OtherDistribution "Multinomial") 3.
Definition binomial : distribution := make_distribution Binomial 3.
Definition recognition : mlp := make_mlp 5 3 (Some binomial).
Definition generation : mlp :=
  make_mlp 3 5 (Some (make_distribution Binomial 5)).
Definition gen_args : pyval := PyDict (<["output" := PyStr "x"]> ∅).

Definition sbn : helmholtz :=
  {| posterior := recognition; conditional := generation;
     prior := binomial; dim_h := 3; name := "sbn"; params := ∅;
     attrs := ∅ |}.

End Sample.

(* ===================================================================== *)
(** ** Vocabulary of the properties *)
(* ===================================================================== *)

Import Helmholtz.

(** The prior is an instance of one of the four classes with a name. *)
Definition supported (c : dist_class) : Prop :=
  match c with
  | OtherDistribution _ => False
  | _ => True
  end.

Definition default_names : list string := ["sbn"; "gbn"; "lbn"; "labn"].

(** The invariant of an instance: the latent dimension is the dimension
    of the prior. *)
Definition latent_dim_invariant (h : helmholtz) : Prop :=
  dim_h h = dist_dim (prior h).

(** The operations of the class on an instance, with their arguments. *)
Inductive operation : Type :=
  | op_set_params
  | op_set_tparams
  | op_get_params
  | op_get_prior_params (params : list tensor)
  | op_get_posterior_params (params : list tensor)
  | op_sample_from_prior (n_samples : Z)
  | op_generate_from_latent (h : tensor)
  | op_visualize_latents
  | op_get_center (p : tensor)
  | op_log_marginal (y h py q : tensor)
  | op_get_decay_params
  | op_p_y_given_h (h : tensor) (params : list tensor)
  | op_init_inference_samples (size : tensor)
  | op_call (x y : tensor) (qk : option tensor) (n_posterior_samples : Z)
      (pass_gradients reweight reweight_gen_only sleep_phase : bool).

(** The instance after an operation.  [set_params] is the one method
    with assignments to attributes; the others build graphs, lists and
    dictionaries and leave the instance as it is. *)
Definition after (op : operation) (self : helmholtz) : helmholtz :=
  match op with
  | op_set_params => set_params self
  | _ => self
  end.

Definition after_all (ops : list operation) (self : helmholtz) : helmholtz :=
  foldl (fun h op => after op h) self ops.

(** [n_params] of a component is the length of its [get_params()]. *)
Definition params_coherent (h : helmholtz) : Prop :=
  dist_n_params (prior h) = Z.of_nat (length (dist_params (prior h)))
  /\ mlp_n_params (conditional h) = Z.of_nat (length (mlp_params (conditional h)))
  /\ mlp_n_params (posterior h) = Z.of_nat (length (mlp_params (posterior h))).

(** The nodes of the graph of [__call__] the properties speak about, by
    the names they have in the source. *)
Module Node.
(** The instance and the arguments of a call. *)
Record inputs : Type := {
  self : helmholtz;
  x : tensor;
  y : tensor;
  qk : option tensor;
  n_posterior_samples : Z
}.

Section Nodes.
Variable i : inputs.

Definition q0 : tensor := MCall Posterior feed [x i].

(** [qk] after [if qk is None: qk = q0] *)
Definition qk' : tensor := default q0 (qk i).

Definition size : tensor :=
  Tuple [IntLit (n_posterior_samples i); Shape (y i) 0; IntLit (dim_h (self i))].

Definition r : tensor := MCall PosteriorDistribution prototype_samples [size].

Definition h : tensor :=
  MCall PosteriorDistribution step_sample [r; NewAxis qk'].

Definition py_h : tensor := MCall Conditional feed [h].

(** log p(y|h), log p(h), log q0(h), log qk(h) *)
Definition log_py_h : tensor :=
  Neg (MCall Conditional neg_log_prob [NewAxis (y i); py_h]).
Definition log_ph : tensor := Neg (MCall Prior neg_log_prob [h]).
Definition log_qh0 : tensor :=
  Neg (MCall Posterior neg_log_prob [h; NewAxis q0]).
Definition log_qhk : tensor :=
  Neg (MCall Posterior neg_log_prob [h; NewAxis qk']).

Definition q_entropy : tensor := MCall Posterior entropy [qk'].

(** The importance weights. *)
Definition w_tilde : tensor :=
  GetWTilde (Sub (Add log_py_h log_ph) log_qhk).

(** The log marginal. *)
Definition log_p : tensor :=
  Sub (LogSumExp (Sub (Add log_py_h log_ph) log_qhk) 0)
      (Log (IntLit (n_posterior_samples i))).

(** The three terms of the bound. *)
Definition recon_term : tensor := Neg log_py_h.

Definition KL_term (reweight reweight_gen_only : bool) : tensor :=
  if dist_has_kl (prior (self i)) && negb reweight && negb reweight_gen_only
  then MCall Prior kl_divergence [qk']
  else Sub (Neg log_ph) q_entropy.

Definition posterior_term (qdist : distribution)
    (pass_gradients reweight reweight_gen_only : bool) : tensor :=
  if pass_gradients then ZerosLike log_qh0
  else if dist_has_kl qdist && negb reweight && negb reweight_gen_only
  then MCall PosteriorDistribution step_kl_divergence
         [qk'; Splat (MCall PosteriorDistribution split_prob [q0])]
  else Neg log_qh0.

(** Summed over the batch (axis 1), averaged over the samples
    (axis 0). *)
Definition sum_batch_mean_samples (t : tensor) : tensor :=
  Mean (Sum t [1]) (Some 0) false.

(** The negative variational lower bound as a cost. *)
Definition negative_lower_bound (qdist : distribution)
    (pass_gradients reweight reweight_gen_only : bool) : tensor :=
  sum_batch_mean_samples
    (Add (Add recon_term (KL_term reweight reweight_gen_only))
         (posterior_term qdist pass_gradients reweight reweight_gen_only)).

(** The importance-reweighted estimators: of the joint with the
    posterior, and of the generative part alone. *)
Definition generative_term : tensor :=
  Sum (Mul w_tilde (Add log_py_h log_ph)) [0; 1].

Definition reweighted : tensor :=
  Neg (Sum (Mul w_tilde (Add (Add log_py_h log_ph) log_qh0)) [0; 1]).

Definition reweighted_gen_only : tensor :=
  Neg (Add generative_term (sum_batch_mean_samples log_qh0)).

(** The sleep phase: samples of the prior, data sampled from the
    conditional, and the log-probability of the prior samples under
    the posterior given that data. *)
Definition h_s : tensor :=
  MCall Prior step_sample
    [r; MCall Prior get_prob (dist_params (prior (self i)))].

Definition y_s : tensor :=
  Item (MCall Conditional sample [MCall Conditional feed [h_s]]) 0.

Definition log_qh0_s : tensor :=
  Neg (MCall Posterior neg_log_prob
         [h_s; MCall Posterior feed [Item y_s 0]]).

Definition recognition_term : tensor := sum_batch_mean_samples log_qh0_s.

Definition sleep_objective : tensor :=
  Neg (Add generative_term recognition_term).

(** [constants] before the costs are formed. *)
Definition constants0 (pass_gradients : bool) : list tensor :=
  match qk i with
  | Some q => if pass_gradients then [] else [q]
  | None => []
  end.

End Nodes.
End Node.

(** The keys every results dictionary has. *)
Definition result_keys : list string :=
  ["lower_bound"; "cost"; "-log p(x)"; "-log p(x|h)"; "H(p)"; "H(q)";
   "log ESS"].

(** The reading of 'the importance-reweighted estimator': one of the
    two estimators of the reweight branches. *)
Definition importance_reweighted (i : Node.inputs) (cost : tensor) : Prop :=
  cost = Node.reweighted i \/ cost = Node.reweighted_gen_only i.

(** A call on the small binomial model. *)
Definition sample_inputs : Node.inputs :=
  {| Node.self := Sample.sbn; Node.x := Var "x"; Node.y := Var "y";
     Node.qk := None; Node.n_posterior_samples := 10 |}.

(** [gen_args] selects the 'dag' branch of [mlp_factory]. *)
Definition selects_dag (gen_args : pyval) : bool :=
  match PyVal.get (args_or_empty gen_args) "type" with
  | Ok t => PyVal.eq_str t "dag"
  | Raise _ => false
  end.

(** The keyword arguments [unpack] hands to [Helmholtz.factory]. *)
Definition unpack_keywords (prior rec_args gen_args : pyval) : kwargs :=
  <["prior" := prior]> (<["rec_args" := rec_args]> (<["gen_args" := gen_args]> ∅)).

(** A network factory reads the dimensions it is given. *)
Definition reads_dimensions (E : Externals) : Prop :=
  forall cls args m,
    net_factory cls args = Ok m ->
    (forall a, args !! "dim_in" = Some (PyInt a) -> mlp_dim_in m = a)
    /\ (forall b, args !! "dim_out" = Some (PyInt b) -> mlp_dim_out m = b).

(** A prior class builds a distribution of the dimension it is given. *)
Definition builds_dimension (E : Externals) : Prop :=
  forall PC n p, call_prior PC (PyInt n) = Ok p -> dist_dim p = n.

(** The [.theanorc] step on the trace. *)
Definition theanorc_events (w : Setup.env) : list Setup.event :=
  let trc := Setup.join w (Setup.expanduser w "~") ".theanorc" in
  if Setup.isfile w trc then []
  else [Setup.Print ("No " +:+ trc +:+ " found, adding");
        Setup.WriteDefaultTheanorc].

(** The trace from the question about the basic data to the question
    about the neuroimaging data, when the fetch raises HTTPError. *)
Definition basic_failure_events : list Setup.event :=
  [Setup.QueryYesNo Setup.basic_question;
   Setup.FetchBasicData;
   Setup.Print Setup.basic_warning;
   Setup.Print Setup.neuroimaging_notice;
   Setup.QueryYesNo Setup.neuroimaging_question].

(** An outside where both fetches raise HTTPError. *)
Definition offline : Setup.env :=
  {| Setup.get_paths := Raise (ValueError "no configuration");
     Setup.raw_input := fun _ => "/data";
     Setup.expanduser := fun p => p;
     Setup.isdir := fun _ => true;
     Setup.isfile := fun _ => false;
     Setup.join := fun a b => a +:+ "/" +:+ b;
     Setup.query_yes_no := fun _ => true;
     Setup.fetch_basic_data := Raise HTTPError;
     Setup.fetch_neuroimaging_data := Raise HTTPError |}.

(** A fetch that ends the script: the user asked for it and it raised
    something other than HTTPError. *)
Definition propagates (answer : bool) (outcome : result unit) : Prop :=
  answer = true /\ exists e, outcome = Raise e /\ e <> HTTPError.

(** The initialisers of the package leave the output dimension of the
    conditional of the instance they are handed as it is. *)
Definition keeps_conditional_output (E : Externals) : Prop :=
  (forall h kw h' kw',
     init_weights h kw = Ok (h', kw') ->
     mlp_dim_out (conditional h') = mlp_dim_out (conditional h))
  /\ (forall h kw h' kw',
        init_rngs h kw = Ok (h', kw') ->
        mlp_dim_out (conditional h') = mlp_dim_out (conditional h))
  /\ (forall h n h',
        Layer_init h n = Ok h' ->
        mlp_dim_out (conditional h') = mlp_dim_out (conditional h)).

(* ===================================================================== *)
(** ** Vocabulary of the further properties *)
(* ===================================================================== *)

(** [s] with [pre_] put in front [k] times. *)
Definition prefixed (k : nat) (pre s : string) : string :=
  Nat.iter k (fun t => pre +:+ "_" +:+ t) s.

(** [k] calls of [set_params]. *)
Definition set_params_times (k : nat) (h : helmholtz) : helmholtz :=
  Nat.iter k set_params h.

(** The array results of [__call__]: [OrderedDict(py=py_h,
    batch_energies=recon_term, w_tilde=w_tilde)]. *)
Definition expected_samples (i : Node.inputs) : gmap string tensor :=
  <["py" := Node.py_h i]>
  (<["batch_energies" := Node.recon_term i]>
  (<["w_tilde" := Node.w_tilde i]> ∅)).

(** The prior's KL divergence is used: it is tractable and no
    reweighting is asked for. *)
Definition uses_prior_kl (self : helmholtz) (reweight reweight_gen_only : bool)
    : bool :=
  dist_has_kl (prior self) && negb reweight && negb reweight_gen_only.

(** The same for the KL divergence between the two posteriors. *)
Definition uses_posterior_kl (qdist : distribution)
    (reweight reweight_gen_only : bool) : bool :=
  dist_has_kl qdist && negb reweight && negb reweight_gen_only.

(** A model whose networks have no distribution. *)
Definition bare : helmholtz :=
  {| posterior := Sample.make_mlp 5 3 None;
     conditional := Sample.make_mlp 3 5 None;
     prior := Sample.binomial; dim_h := 3; name := "sbn"; params := ∅;
     attrs := ∅ |}.

(** [gen_args['graph']['outs'][key]], when all three lookups succeed. *)
Definition outs_entry (gen_args : pyval) (key : string) : option pyval :=
  match gen_args with
  | PyDict d =>
      match d !! "graph" with
      | Some (PyDict graph) =>
          match graph !! "outs" with
          | Some (PyDict outs) => outs !! key
          | _ => None
          end
      | _ => None
      end
  | _ => None
  end.

(** [dict(dim=dim_out, distribution=data_distribution)] *)
Definition dag_entry (dim_out data_distribution : pyval) : pyval :=
  PyDict (<["dim" := dim_out]> (<["distribution" := data_distribution]> ∅)).

(** Arguments of a 'dag' network with one output already described. *)
Definition dag_args : pyval :=
  PyDict (<["graph" :=
    PyDict (<["outs" := PyDict (<["y" := PyInt 1]> ∅)]> ∅)]> ∅).

(** The events of the first part of the setup script: readline, the
    messages, the two prompts and the written configuration. *)
Definition is_path_event (e : Setup.event) : Prop :=
  match e with
  | Setup.QueryYesNo _ | Setup.FetchBasicData | Setup.FetchNeuroimagingData
  | Setup.WriteDefaultTheanorc => False
  | _ => True
  end.

(** The events of the second part. *)
Definition is_download_event (e : Setup.event) : Prop :=
  match e with
  | Setup.QueryYesNo _ | Setup.FetchBasicData | Setup.FetchNeuroimagingData
  | Setup.WriteDefaultTheanorc | Setup.Print _ => True
  | _ => False
  end.

(** The path of the Theano configuration the script looks for. *)
Definition theanorc_path (w : Setup.env) : string :=
  Setup.join w (Setup.expanduser w "~") ".theanorc".

(** An outside with a configuration, existing directories, and a user
    who presses Enter at both prompts and declines both downloads. *)
Definition configured : Setup.env :=
  {| Setup.get_paths :=
       Ok (<["$data" := "/data"]> (<["$outs" := "/outs"]> ∅));
     Setup.raw_input := fun _ => "";
     Setup.expanduser := fun p => p;
     Setup.isdir := fun _ => true;
     Setup.isfile := fun _ => true;
     Setup.join := fun a b => a +:+ "/" +:+ b;
     Setup.query_yes_no := fun _ => false;
     Setup.fetch_basic_data := Ok tt;
     Setup.fetch_neuroimaging_data := Ok tt |}.

(** An outside whose data directory does not exist. *)
Definition no_data_directory : Setup.env :=
  {| Setup.get_paths := Raise (ValueError "no configuration");
     Setup.raw_input := fun _ => "/data";
     Setup.expanduser := fun p => p;
     Setup.isdir := fun _ => false;
     Setup.isfile := fun _ => false;
     Setup.join := fun a b => a +:+ "/" +:+ b;
     Setup.query_yes_no := fun _ => true;
     Setup.fetch_basic_data := Ok tt;
     Setup.fetch_neuroimaging_data := Ok tt |}.

(** An outside where the fetch of the basic data fails for a reason
    other than HTTPError. *)
Definition broken_disk : Setup.env :=
  {| Setup.get_paths := Raise (ValueError "no configuration");
     Setup.raw_input := fun _ => "/data";
     Setup.expanduser := fun p => p;
     Setup.isdir := fun _ => true;
     Setup.isfile := fun _ => false;
     Setup.join := fun a b => a +:+ "/" +:+ b;
     Setup.query_yes_no := fun _ => true;
     Setup.fetch_basic_data := Raise (OtherError "IOError");
     Setup.fetch_neuroimaging_data := Ok tt |}.

(** Components whose tables of tensor parameters share names: both
    networks provide 'z' and 'W' and the prior provides 'z'. *)
Definition colliding : Externals :=
  {| resolve_prior := @resolve_prior Sample.externals;
     call_prior := @call_prior Sample.externals;
     resolve_mlp := @resolve_mlp Sample.externals;
     net_factory := @net_factory Sample.externals;
     init_weights := @init_weights Sample.externals;
     init_rngs := @init_rngs Sample.externals;
     Layer_init := @Layer_init Sample.externals;
     Layer_set_tparams := fun _ => ∅;
     mlp_set_tparams := fun q =>
       <["z" := Var (mlp_name q +:+ ".z")]>
       (<["W" := Var (mlp_name q +:+ ".W")]> ∅);
     dist_set_tparams := fun d =>
       <["z" := Var (dist_name d +:+ ".z")]> ∅ |}.

(** A model whose networks both decay 'W'; the posterior also decays
    'U'. *)
Definition decaying : helmholtz :=
  {| posterior :=
       {| mlp_name := "q"; mlp_dim_in := 5; mlp_dim_out := 3;
          mlp_distribution := Some Sample.binomial; mlp_n_params := 2;
          mlp_params := [Var "W"; Var "b"];
          mlp_decay_params :=
            <["W" := Var "q.W"]> (<["U" := Var "q.U"]> ∅) |};
     conditional :=
       {| mlp_name := "c"; mlp_dim_in := 3; mlp_dim_out := 5;
          mlp_distribution := Some (Sample.make_distribution Binomial 5);
          mlp_n_params := 2;
          mlp_params := [Var "W"; Var "b"];
          mlp_decay_params := <["W" := Var "c.W"]> ∅ |};
     prior := Sample.binomial; dim_h := 3; name := "sbn"; params := ∅;
     attrs := ∅ |}.

(* ===================================================================== *)
(** * Properties *)
(* ===================================================================== *)

(** ** Reasoning about [result] *)

Lemma bind_Ok {A B : Type} (c : result A) (k : A -> result B) (b : B) :
  c ≫= k = Ok b -> exists a, c = Ok a /\ k a = Ok b.
Proof. destruct c as [a|e]; [exists a; split; [reflexivity|assumption]|discriminate]. Qed.

Lemma bind_Raise {A B : Type} (e : exn) (k : A -> result B) :
  Raise e ≫= k = Raise e.
Proof. reflexivity. Qed.

Lemma bind_Ok_l {A B : Type} (a : A) (k : A -> result B) :
  Ok a ≫= k = k a.
Proof. reflexivity. Qed.

(** ** The model on small inputs *)

Example slice_inner : PyVal.slice [10; 20; 30; 40; 50] 1 3 = [20; 30].
Proof. reflexivity. Qed.

Example slice_from_the_end : PyVal.slice [10; 20; 30; 40; 50] (-2) 9 = [40; 50].
Proof. reflexivity. Qed.

Example slice_empty : PyVal.slice [10; 20; 30] 2 1 = [].
Proof. reflexivity. Qed.

(** A gaussian model of 5 inputs, 3 latent variables and 7 outputs. *)
Example mlp_factory_sample :
  (fun '(q, c, p) =>
     (mlp_dim_in q, mlp_dim_out q, mlp_dim_in c, mlp_dim_out c,
      dist_dim p, dist_cls p))
  <$> mlp_factory (E := Sample.externals) (PyInt 5) (PyInt 3) (PyInt 7)
        (PyStr "binomial") (PyStr "gaussian") PyNone Sample.gen_args
  = Ok (5, 3, 3, 7, 3, Gaussian).
Proof. vm_compute. reflexivity. Qed.

(** [__init__] names the model after its prior, and [Layer.__init__] of
    the sample renames the components. *)
Example init_sample :
  (fun m => (name m, dist_name (prior m), mlp_name (posterior m)))
  <$> __init__ (E := Sample.externals)
        Sample.recognition Sample.generation Sample.binomial None ∅
  = Ok ("sbn", "sbn_prior", "sbn_posterior").
Proof. vm_compute. reflexivity. Qed.

(** Two rounds of the loop of the 'dag' branch write one entry. *)
Example dag_loop_sample :
  dag_loop 2 (PyStr "x") (PyInt 7) (PyStr "binomial")
    (PyDict (<["graph" := PyDict (<["outs" := PyDict ∅]> ∅)]> ∅))
  = Ok (PyDict (<["graph" :=
          PyDict (<["outs" :=
            PyDict (<["x" :=
              PyDict (<["dim" := PyInt 7]>
                      (<["distribution" := PyStr "binomial"]> ∅))]> ∅)]> ∅)]> ∅)).
Proof. vm_compute. reflexivity. Qed.

(** An unknown keyword of [factory] is refused. *)
Example factory_unknown_keyword :
  factory (E := Sample.externals) (PyInt 5) (PyInt 3) PyNone None
    (<["name" := PyStr "hm"]> ∅)
  = Raise (TypeError "mlp_factory() got an unexpected keyword argument").
Proof. vm_compute. reflexivity. Qed.

(** [data_distribution=None], passed as such, fails the assertion. *)
Example factory_explicit_none :
  factory (E := Sample.externals) (PyInt 5) (PyInt 3) PyNone (Some PyNone)
    (<["gen_args" := Sample.gen_args]> ∅)
  = Raise AssertionError.
Proof. vm_compute. reflexivity. Qed.

(** ** Construction: the check of the prior *)

Lemma default_name_supported (p : distribution) :
  supported (dist_cls p) ->
  exists n, default_name p = Ok n /\ n ∈ default_names.
Proof.
  unfold default_name, default_names.
  destruct (dist_cls p); simpl; intros H; try contradiction;
    eexists; (split; [reflexivity|]); set_solver.
Qed.

(** C2, as stated, fails: with a [name] the type of the prior is never
    looked at, and a prior of an unsupported type is accepted. *)
Lemma init_named_unsupported_prior :
  ~ supported (dist_cls Sample.multinomial) /\
  exists m,
    __init__ (E := Sample.externals) Sample.recognition Sample.generation Sample.multinomial
      (Some "hm") ∅ = Ok m.
Proof.
  split; [intros H; exact H|].
  eexists. vm_compute. reflexivity.
Qed.

(** C2, amended: when [name] is omitted, a prior that is an instance of
    none of Binomial, Gaussian, Logistic and Laplace makes [__init__]
    raise the ValueError before any initialisation runs; a prior of one
    of the four gets the name sbn, gbn, lbn or labn and construction goes
    on exactly as if that name had been passed, so it returns as soon as
    the three initialisers return; with a [name], the type of the prior
    is not checked. *)
Theorem init_checks_prior_when_unnamed
    (E : Externals) (q c : mlp) (p : distribution) (kw : kwargs) :
  (forall cls, dist_cls p = OtherDistribution cls ->
     __init__ q c p None kw =
       Raise (ValueError ("Prior type " +:+ cls +:+ " not supported")))
  /\ (supported (dist_cls p) ->
      exists n, n ∈ default_names /\
        __init__ q c p None kw = __init__ q c p (Some n) kw)
  /\ (forall n h1 kw1 h2 kw2 m,
        init_weights (assign_components q c p) kw = Ok (h1, kw1) ->
        init_rngs h1 kw1 = Ok (h2, kw2) ->
        Layer_init h2 n = Ok m ->
        __init__ q c p (Some n) kw = Ok m).
Proof.
  split; [|split].
  - intros cls Hcls. unfold __init__, default_name. rewrite Hcls. reflexivity.
  - intros Hs. destruct (default_name_supported p Hs) as (n & Hn & Hin).
    exists n. split; [exact Hin|]. unfold __init__. rewrite Hn. reflexivity.
  - intros n h1 kw1 h2 kw2 m Hw Hr HL. unfold __init__.
    rewrite bind_Ok_l, Hw, bind_Ok_l. simpl. rewrite Hr, bind_Ok_l. exact HL.
Qed.

Lemma init_checks_prior_when_unnamed_witness :
  __init__ (E := Sample.externals) Sample.recognition Sample.generation Sample.multinomial None ∅
    = Raise (ValueError "Prior type Multinomial not supported")
  /\ (exists n, n ∈ default_names /\
        __init__ (E := Sample.externals) Sample.recognition Sample.generation Sample.binomial None ∅
        = __init__ (E := Sample.externals) Sample.recognition Sample.generation Sample.binomial (Some n) ∅)
  /\ Py.returns
       (__init__ (E := Sample.externals) Sample.recognition Sample.generation Sample.multinomial
          (Some "hm") ∅).
Proof.
  pose proof (init_checks_prior_when_unnamed Sample.externals
                Sample.recognition Sample.generation) as T.
  split; [|split].
  - destruct (T Sample.multinomial ∅) as (H & _ & _).
    exact (H "Multinomial" eq_refl).
  - destruct (T Sample.binomial ∅) as (_ & H & _). apply H. exact I.
  - destruct (T Sample.multinomial ∅) as (_ & _ & H).
    eexists. eapply H; reflexivity.
Defined.

(** ** The three components and the latent dimension *)

Lemma set_params_latent_dim (h : helmholtz) :
  latent_dim_invariant h -> latent_dim_invariant (set_params h).
Proof. unfold latent_dim_invariant. intros H. simpl. exact H. Qed.

Lemma after_latent_dim (op : operation) (h : helmholtz) :
  latent_dim_invariant h -> latent_dim_invariant (after op h).
Proof.
  destruct op; simpl; intros H;
    [apply set_params_latent_dim, H | exact H ..].
Qed.

Lemma after_all_latent_dim (ops : list operation) :
  forall h, latent_dim_invariant h -> latent_dim_invariant (after_all ops h).
Proof.
  unfold after_all.
  induction ops as [|op ops IH]; intros h H; simpl; [exact H|].
  apply IH, after_latent_dim, H.
Qed.

Section Construction.
Context (E : Externals).

(** The initialisers of the package keep the invariant of the instance
    they are handed. *)
Hypothesis init_weights_keeps : forall h kw h' kw',
  init_weights h kw = Ok (h', kw') ->
  latent_dim_invariant h -> latent_dim_invariant h'.
Hypothesis init_rngs_keeps : forall h kw h' kw',
  init_rngs h kw = Ok (h', kw') ->
  latent_dim_invariant h -> latent_dim_invariant h'.
Hypothesis Layer_init_keeps : forall h n h',
  Layer_init h n = Ok h' ->
  latent_dim_invariant h -> latent_dim_invariant h'.

Lemma init_latent_dim (q c : mlp) (p : distribution) (n : option string)
    (kw : kwargs) (m : helmholtz) :
  __init__ q c p n kw = Ok m -> latent_dim_invariant m.
Proof.
  unfold __init__. intros H.
  apply bind_Ok in H as (nm & _ & H).
  apply bind_Ok in H as ([h1 kw1] & Hw & H).
  apply bind_Ok in H as ([h2 kw2] & Hr & H).
  eapply Layer_init_keeps; [exact H|].
  eapply init_rngs_keeps; [exact Hr|].
  eapply init_weights_keeps; [exact Hw|].
  reflexivity.
Qed.

(** C4: a Helmholtz instance has exactly the three components
    posterior, conditional and prior; [__init__] stores its three
    arguments under these attributes and sets [dim_h] to [prior.dim];
    the equation [dim_h = prior.dim] holds for every constructed
    instance and after any sequence of operations of the class. *)
Theorem three_components_latent_dim :
  _components = ["posterior"; "conditional"; "prior"]
  /\ (forall q c p,
        posterior (assign_components q c p) = q
        /\ conditional (assign_components q c p) = c
        /\ prior (assign_components q c p) = p
        /\ latent_dim_invariant (assign_components q c p))
  /\ (forall q c p n kw m,
        __init__ q c p n kw = Ok m -> latent_dim_invariant m)
  /\ (forall ops h,
        latent_dim_invariant h -> latent_dim_invariant (after_all ops h)).
Proof.
  split; [reflexivity|]. split; [|split].
  - intros q c p. repeat split.
  - intros q c p n kw m. apply init_latent_dim.
  - intros ops h. apply after_all_latent_dim.
Qed.

End Construction.

Lemma three_components_latent_dim_witness :
  exists m,
    __init__ (E := Sample.externals)
      Sample.recognition Sample.generation Sample.binomial None ∅ = Ok m
    /\ latent_dim_invariant m
    /\ latent_dim_invariant
         (after_all [op_set_params; op_get_params; op_set_params] m).
Proof.
  destruct (three_components_latent_dim Sample.externals)
    as (_ & _ & Hinit & Hops).
  - intros h kw h' kw' H. simpl in H. injection H as <- _. intros Hh. exact Hh.
  - intros h kw h' kw' H. simpl in H. injection H as <- _. intros Hh. exact Hh.
  - intros h n h' H. simpl in H. injection H as <-. intros Hh. exact Hh.
  - eexists. split; [vm_compute; reflexivity|].
    split; [|apply Hops];
      apply (Hinit Sample.recognition Sample.generation Sample.binomial None ∅);
      vm_compute; reflexivity.
Defined.

(** ** Parameters: concatenation and slices *)

Lemma slice_middle {A : Type} (a b c : list A) :
  PyVal.slice (a ++ b ++ c) (Z.of_nat (length a))
    (Z.of_nat (length a) + Z.of_nat (length b)) = b.
Proof.
  unfold PyVal.slice, PyVal.clip.
  rewrite !length_app.
  destruct (Z.ltb_spec (Z.of_nat (length a)) 0) as [?|_]; [lia|].
  destruct (Z.ltb_spec (Z.of_nat (length a) + Z.of_nat (length b)) 0) as [?|_];
    [lia|].
  rewrite !Z.min_l by lia.
  replace (Z.to_nat (Z.of_nat (length a) + Z.of_nat (length b)
                     - Z.of_nat (length a))) with (length b) by lia.
  rewrite Nat2Z.id, drop_app_length, take_app_length. reflexivity.
Qed.

Lemma slice_prefix {A : Type} (a c : list A) :
  PyVal.slice (a ++ c) 0 (Z.of_nat (length a)) = a.
Proof.
  pose proof (slice_middle (@nil A) a c) as H. simpl in H. exact H.
Qed.

Lemma slice_suffix {A : Type} (a c : list A) :
  PyVal.slice (a ++ c) (Z.of_nat (length a))
    (Z.of_nat (length a) + Z.of_nat (length c)) = c.
Proof.
  pose proof (slice_middle a c (@nil A)) as H.
  rewrite app_nil_r in H. exact H.
Qed.

(** C9: [get_params] is the prior's parameters, then the conditional's,
    then the posterior's; on that list [get_prior_params] gives back the
    prior's parameters and [get_posterior_params] the posterior's, for
    an instance whose components count their parameters in [n_params]. *)
Theorem params_round_trip (h : helmholtz) :
  params_coherent h ->
  get_params h
    = dist_params (prior h) ++ mlp_params (conditional h)
        ++ mlp_params (posterior h)
  /\ get_prior_params h (get_params h) = dist_params (prior h)
  /\ get_posterior_params h (get_params h) = mlp_params (posterior h).
Proof.
  intros (Hp & Hc & Hq). unfold get_prior_params, get_posterior_params, get_params.
  split; [reflexivity|]. split.
  - rewrite Hp. apply slice_prefix.
  - rewrite Hp, Hc, Hq, app_assoc, <- Nat2Z.inj_add, <- length_app.
    apply slice_suffix.
Qed.

Lemma params_round_trip_witness :
  get_prior_params Sample.sbn (get_params Sample.sbn) = [Var "z"]
  /\ get_posterior_params Sample.sbn (get_params Sample.sbn) = [Var "W"; Var "b"].
Proof.
  destruct (params_round_trip Sample.sbn) as (_ & Hp & Hq).
  - unfold params_coherent. simpl. lia.
  - split; [exact Hp|exact Hq].
Defined.

(** ** The objectives of [__call__] *)

(** The graph of a call on an instance whose posterior has a
    distribution. *)
Lemma call_returns (i : Node.inputs) (qdist : distribution)
    (pass_gradients reweight reweight_gen_only sleep_phase : bool) :
  mlp_distribution (posterior (Node.self i)) = Some qdist ->
  exists out,
    __call__ (Node.self i) (Node.x i) (Node.y i) (Node.qk i)
      (Node.n_posterior_samples i)
      pass_gradients reweight reweight_gen_only sleep_phase = Ok out
    /\ Forall (fun k => is_Some (results out !! k)) result_keys
    /\ results out !! "cost" =
         Some (if sleep_phase then Node.sleep_objective i
               else if reweight then Node.reweighted i
               else if reweight_gen_only then Node.reweighted_gen_only i
               else Node.negative_lower_bound i qdist
                      pass_gradients reweight reweight_gen_only)
    /\ constants out =
         Node.constants0 i pass_gradients
           ++ (if sleep_phase then [Node.y_s i; Node.w_tilde i]
               else if reweight || reweight_gen_only then [Node.w_tilde i]
               else []).
Proof.
  intros Hq. destruct i as [self x y qk n]. simpl in *.
  unfold __call__, init_inference_samples, distribution_of. rewrite Hq.
  unfold Node.negative_lower_bound, Node.KL_term, Node.posterior_term.
  simpl Node.self.
  cbv beta iota zeta delta [mbind result_bind Py.bind].
  destruct qk as [q|], pass_gradients, reweight, reweight_gen_only, sleep_phase,
    (dist_has_kl (prior self)), (dist_has_kl qdist);
    cbv beta iota zeta delta [negb andb orb];
    (eexists; split; [reflexivity|]);
    (split; [repeat constructor; vm_compute; eexists; reflexivity|]);
    (split; [vm_compute; reflexivity|]); reflexivity.
Qed.

(** C1, as stated, fails: with [sleep_phase] and [reweight] both true the
    cost is the sleep-phase objective, which is neither of the
    importance-reweighted estimators. *)
Lemma sleep_phase_overrides_reweight :
  exists out cost,
    __call__ Sample.sbn (Var "x") (Var "y") None 10
      false true false true = Ok out
    /\ results out !! "cost" = Some cost
    /\ cost = Node.sleep_objective sample_inputs
    /\ ~ importance_reweighted sample_inputs cost.
Proof.
  eexists. eexists.
  split; [vm_compute; reflexivity|].
  split; [vm_compute; reflexivity|].
  split; [vm_compute; reflexivity|].
  intros [H|H]; vm_compute in H; discriminate H.
Qed.

(** C1, amended: one call of [__call__] on an instance whose posterior
    has a distribution returns a results dictionary with the keys
    'lower_bound', 'cost', '-log p(x)', '-log p(x|h)', 'H(p)', 'H(q)' and
    'log ESS'; its 'cost' is the sleep-phase objective when [sleep_phase]
    is true, whatever the other flags; otherwise the importance-reweighted
    estimator of the joint when [reweight] is true; otherwise the one of
    the generative part when [reweight_gen_only] is true; otherwise
    recon_term + KL_term + posterior_term summed over the batch and
    averaged over the samples. *)
Theorem call_results_and_cost (i : Node.inputs)
    (qdist : distribution)
    (pass_gradients reweight reweight_gen_only sleep_phase : bool) :
  mlp_distribution (posterior (Node.self i)) = Some qdist ->
  exists out,
    __call__ (Node.self i) (Node.x i) (Node.y i) (Node.qk i)
      (Node.n_posterior_samples i)
      pass_gradients reweight reweight_gen_only sleep_phase = Ok out
    /\ Forall (fun k => is_Some (results out !! k)) result_keys
    /\ results out !! "cost" =
         Some (if sleep_phase then Node.sleep_objective i
               else if reweight then Node.reweighted i
               else if reweight_gen_only then Node.reweighted_gen_only i
               else Node.sum_batch_mean_samples
                      (Add (Add (Node.recon_term i)
                                (Node.KL_term i reweight reweight_gen_only))
                           (Node.posterior_term i qdist pass_gradients
                              reweight reweight_gen_only))).
Proof.
  intros Hq.
  destruct (call_returns i qdist pass_gradients reweight reweight_gen_only
              sleep_phase Hq) as (out & Hrun & Hkeys & Hcost & _).
  exists out. repeat split; assumption.
Qed.

Lemma call_results_and_cost_witness :
  exists out,
    __call__ Sample.sbn (Var "x") (Var "y") None 10
      false false false false = Ok out
    /\ Forall (fun k => is_Some (results out !! k)) result_keys
    /\ results out !! "cost" =
         Some (Node.sum_batch_mean_samples
                 (Add (Add (Node.recon_term sample_inputs)
                           (Node.KL_term sample_inputs false false))
                      (Node.posterior_term sample_inputs Sample.binomial
                         false false false))).
Proof.
  apply (call_results_and_cost sample_inputs Sample.binomial
           false false false false).
  reflexivity.
Defined.

(** C6: with [sleep_phase=True] the cost is minus the sum of two terms:
    the generative term, log p(y|h) + log p(h) weighted by [w_tilde],
    and the recognition term, the log-probability of the prior samples
    [h_s] under the posterior fed with the data [y_s] sampled from the
    conditional; [y_s] and [w_tilde] are appended, in this order, to the
    constants. *)
Theorem sleep_phase_cost (i : Node.inputs)
    (qdist : distribution)
    (pass_gradients reweight reweight_gen_only : bool) :
  mlp_distribution (posterior (Node.self i)) = Some qdist ->
  exists out,
    __call__ (Node.self i) (Node.x i) (Node.y i) (Node.qk i)
      (Node.n_posterior_samples i)
      pass_gradients reweight reweight_gen_only true = Ok out
    /\ results out !! "cost" =
         Some (Neg (Add
           (Sum (Mul (Node.w_tilde i) (Add (Node.log_py_h i) (Node.log_ph i)))
                [0; 1])
           (Node.sum_batch_mean_samples
              (Neg (MCall Posterior neg_log_prob
                      [Node.h_s i; MCall Posterior feed [Item (Node.y_s i) 0]])))))
    /\ Node.y_s i =
         Item (MCall Conditional sample [MCall Conditional feed [Node.h_s i]]) 0
    /\ constants out =
         Node.constants0 i pass_gradients ++ [Node.y_s i; Node.w_tilde i]
    /\ Node.y_s i ∈ constants out
    /\ Node.w_tilde i ∈ constants out.
Proof.
  intros Hq.
  destruct (call_returns i qdist pass_gradients reweight reweight_gen_only
              true Hq) as (out & Hrun & _ & Hcost & Hconst).
  exists out. split; [exact Hrun|]. split; [exact Hcost|].
  split; [reflexivity|]. split; [exact Hconst|].
  rewrite Hconst. split; set_solver.
Qed.

Lemma sleep_phase_cost_witness :
  exists out,
    __call__ Sample.sbn (Var "x") (Var "y") None 10
      false false false true = Ok out
    /\ constants out =
         [Node.y_s sample_inputs; Node.w_tilde sample_inputs].
Proof.
  destruct (sleep_phase_cost sample_inputs Sample.binomial
              false false false eq_refl)
    as (out & Hrun & _ & _ & Hconst & _).
  exists out. split; [exact Hrun|exact Hconst].
Defined.

(** ** [mlp_factory]: the wiring of the three sub-networks *)

Lemma setitem_Ok (v : pyval) (k : string) (x v' : pyval) :
  PyVal.setitem v k x = Ok v' ->
  exists d, v = PyDict d /\ v' = PyDict (<[k := x]> d).
Proof.
  destruct v; simpl; intros H; try discriminate H.
  injection H as <-. eexists. split; reflexivity.
Qed.

Lemma as_kwargs_Ok (v : pyval) (d : kwargs) :
  PyVal.as_kwargs v = Ok d -> v = PyDict d.
Proof. destruct v; simpl; intros H; try discriminate H. congruence. Qed.

Ltac peel H :=
  repeat (let a := fresh "a" in let Ha := fresh "Ha" in
          apply bind_Ok in H as (a & Ha & H)).

(** C5, the failing case: without [gen_args], the dictionary made for it
    is empty and [gen_args['output']] raises, whatever the dimensions,
    the data distribution, the prior and [rec_args]; nothing is
    returned. *)
Theorem mlp_factory_without_gen_args (E : Externals)
    (dim_in dim_h dim_out data_distribution prior rec_args : pyval) :
  ~ Py.returns
      (mlp_factory dim_in dim_h dim_out data_distribution prior rec_args PyNone)
  /\ mlp_factory (E := Sample.externals)
       (PyInt 784) (PyInt 200) (PyInt 784) (PyStr "binomial")
       PyNone PyNone PyNone = Raise (KeyError "output").
Proof.
  split; [|vm_compute; reflexivity].
  intros [r H]. unfold mlp_factory in H. peel H.
  match goal with
  | K : PyVal.subscript (args_or_empty PyNone) "output" = Ok _ |- _ =>
      vm_compute in K; discriminate K
  end.
Qed.

Lemma assert_Ok (b : bool) (u : unit) : assert b = Ok u -> b = true.
Proof. destruct b; simpl; [reflexivity|discriminate]. Qed.

(** With [gen_args['output']] present and outside the 'dag' branch, what
    [mlp_factory] returns is wired as the arguments say. *)
Lemma mlp_factory_wiring (E : Externals)
    (dim_in dim_h dim_out dd prior rec_args gen_args : pyval)
    (q c : mlp) (p : distribution) :
  reads_dimensions E ->
  selects_dag gen_args = false ->
  mlp_factory dim_in dim_h dim_out dd prior rec_args gen_args = Ok (q, c, p) ->
  (forall a, dim_in = PyInt a -> mlp_dim_in q = a)
  /\ (forall b, dim_h = PyInt b -> mlp_dim_out q = b /\ mlp_dim_in c = b)
  /\ (forall o, dim_out = PyInt o -> mlp_dim_out c = o)
  /\ (exists PC, call_prior PC dim_h = Ok p)
  /\ is_Some (mlp_distribution q) /\ is_Some (mlp_distribution c).
Proof.
  intros Hnet Hdag H. unfold mlp_factory in H.
  unfold selects_dag in Hdag.
  set (ra := args_or_empty rec_args) in *.
  set (ga := args_or_empty gen_args) in *.
  peel H. injection H as -> -> ->.
  apply assert_Ok, bool_decide_eq_true in Ha15, Ha16.
  apply bind_Ok in Ha8 as (dq & Hdq & Hq).
  apply bind_Ok in Ha14 as (dc & Hdc & Hc).
  apply as_kwargs_Ok in Hdq, Hdc. subst a7 a13.
  apply setitem_Ok in Ha7 as (d6 & -> & [= ->]).
  apply setitem_Ok in Ha6 as (d5 & -> & [= ->]).
  apply setitem_Ok in Ha10 as (dg & Hga & ->).
  rewrite Hga in Hdag. simpl in Hdag, Ha11. injection Ha11 as <-.
  unfold PyVal.dict_get in Ha13 at 1.
  rewrite lookup_insert_ne in Ha13 by discriminate.
  fold (PyVal.dict_get dg "type") in Ha13.
  rewrite Hdag in Ha13.
  apply bind_Ok in Ha13 as (g1 & Hg1 & Hg2).
  simpl in Hg1. injection Hg1 as <-. simpl in Hg2. injection Hg2 as <-.
  destruct (Hnet _ _ _ Hq) as [Hqi Hqo].
  destruct (Hnet _ _ _ Hc) as [Hci Hco].
  split; [|split; [|split; [|split; [|split]]]]; try assumption.
  - intros n ->. apply Hqi. rewrite lookup_insert_ne by discriminate.
    apply lookup_insert_eq.
  - intros n ->. split.
    + apply Hqo. apply lookup_insert_eq.
    + apply Hci. rewrite !lookup_insert_ne by discriminate.
      apply lookup_insert_eq.
  - intros n ->. apply Hco. rewrite lookup_insert_ne by discriminate.
    apply lookup_insert_eq.
  - eexists. exact Ha1.
Qed.

Lemma sample_reads_dimensions : reads_dimensions Sample.externals.
Proof.
  intros cls args m. simpl. unfold Sample.sample_net_factory.
  destruct (args !! "dim_in") as [[]|]; try discriminate.
  destruct (args !! "dim_out") as [[]|]; try discriminate.
  intros [= <-]. split; intros ? [= ->]; reflexivity.
Qed.

(** ** [Helmholtz.factory]: the defaults *)

Lemma init_keeps_conditional_output (E : Externals) (q c : mlp)
    (p : distribution) (n : option string) (kw : kwargs) (m : helmholtz) :
  keeps_conditional_output E ->
  __init__ q c p n kw = Ok m ->
  mlp_dim_out (conditional m) = mlp_dim_out c.
Proof.
  intros (Hw & Hr & HL) H. unfold __init__ in H.
  apply bind_Ok in H as (nm & _ & H).
  apply bind_Ok in H as ([h1 kw1] & H1 & H).
  apply bind_Ok in H as ([h2 kw2] & H2 & H).
  rewrite (HL _ _ _ H), (Hr _ _ _ _ H2), (Hw _ _ _ _ H1). reflexivity.
Qed.

Lemma sample_keeps_conditional_output :
  keeps_conditional_output Sample.externals.
Proof.
  split; [|split]; simpl.
  - intros h kw h' kw' [= <- _]. reflexivity.
  - intros h kw h' kw' [= <- _]. reflexivity.
  - intros h n h' [= <-]. reflexivity.
Qed.

(** C10: [factory] with [dim_out] omitted is [factory] with [dim_out]
    set to [dim_in], and with [data_distribution] omitted it is [factory]
    with 'binomial'; a model built with both omitted is
    [Helmholtz(posterior, conditional, prior)] for the three networks
    [mlp_factory] returns for [dim_out = dim_in] and 'binomial', and the
    output dimension of the conditional of that model is [dim_in]. *)
Theorem factory_defaults (E : Externals) (dim_in dim_h : pyval) (kw : kwargs) :
  (forall dd, factory dim_in dim_h PyNone dd kw = factory dim_in dim_h dim_in dd kw)
  /\ (forall dim_out,
        factory dim_in dim_h dim_out None kw
        = factory dim_in dim_h dim_out (Some (PyStr "binomial")) kw)
  /\ (reads_dimensions E ->
      keeps_conditional_output E ->
      selects_dag (PyVal.dict_get kw "gen_args") = false ->
      forall n m,
        dim_in = PyInt n ->
        factory dim_in dim_h PyNone None kw = Ok m ->
        mlp_dim_out (conditional m) = n
        /\ exists q c p,
             mlp_factory dim_in dim_h dim_in (PyStr "binomial")
               (PyVal.dict_get kw "prior") (PyVal.dict_get kw "rec_args")
               (PyVal.dict_get kw "gen_args") = Ok (q, c, p)
             /\ __init__ q c p None ∅ = Ok m
             /\ mlp_dim_out c = n).
Proof.
  split; [|split].
  - intros dd. unfold factory. simpl. destruct (PyVal.is_none dim_in); reflexivity.
  - intros dim_out. reflexivity.
  - intros Hnet Hkeep Hdag n m -> H. unfold factory in H. simpl in H.
    destruct (bool_decide (dom kw ⊆ mlp_factory_keywords)); [|discriminate H].
    apply bind_Ok in H as ([[q c] p] & Hf & Hi).
    destruct (mlp_factory_wiring E _ _ _ _ _ _ _ q c p Hnet Hdag Hf)
      as (_ & _ & Hout & _).
    specialize (Hout n eq_refl).
    split.
    + rewrite (init_keeps_conditional_output E q c p None ∅ m Hkeep Hi).
      exact Hout.
    + exists q, c, p. split; [exact Hf|]. split; [exact Hi|exact Hout].
Qed.

Lemma factory_defaults_witness :
  exists m,
    factory (E := Sample.externals) (PyInt 5) (PyInt 3) PyNone None
      (<["gen_args" := Sample.gen_args]> ∅) = Ok m
    /\ mlp_dim_out (conditional m) = 5.
Proof.
  destruct (factory_defaults Sample.externals (PyInt 5) (PyInt 3)
              (<["gen_args" := Sample.gen_args]> ∅)) as (_ & _ & H).
  destruct (factory (E := Sample.externals) (PyInt 5) (PyInt 3) PyNone None
              (<["gen_args" := Sample.gen_args]> ∅)) as [m|e] eqn:Hm;
    [|vm_compute in Hm; discriminate Hm].
  destruct (H sample_reads_dimensions sample_keeps_conditional_output
              eq_refl 5 m eq_refl eq_refl) as (Hout & _).
  exists m. split; [reflexivity|exact Hout].
Defined.

(** ** [unpack] *)

(** C3: without [data_distribution], [unpack] raises the ValueError with
    nothing printed and nothing built, whatever the other arguments and
    the imported code; with it, [unpack] prints its message, builds the
    model with [Helmholtz.factory] and, when that returns a model,
    returns the list of the model, its posterior, its conditional and
    its prior, together with [model_args] (and [None]); an exception of
    the factory is passed on. *)
Theorem unpack_needs_data_distribution (E : Externals)
    (dim_in dim_h dim_out prior rec_args gen_args : pyval) (model_args : kwargs) :
  unpack dim_in dim_h dim_out prior PyNone rec_args gen_args model_args
    = ([], Raise (ValueError
        "`data_distribution` must be set. Pass `data_distribution` as a keyword argument."))
  /\ forall dd, dd <> PyNone ->
       (forall m,
          factory dim_in dim_h PyNone (Some dd)
            (unpack_keywords prior rec_args gen_args) = Ok m ->
          unpack dim_in dim_h dim_out prior dd rec_args gen_args model_args
          = (["Forming Helmholtz machine"],
             Ok ([ModelHelmholtz m; ModelMLP (posterior m);
                  ModelMLP (conditional m); ModelDistribution (Helmholtz.prior m)],
                 model_args, PyNone)))
       /\ (forall e,
             factory dim_in dim_h PyNone (Some dd)
               (unpack_keywords prior rec_args gen_args) = Raise e ->
             unpack dim_in dim_h dim_out prior dd rec_args gen_args model_args
             = (["Forming Helmholtz machine"], Raise e)).
Proof.
  split; [reflexivity|].
  intros dd Hdd. unfold unpack, unpack_keywords.
  assert (PyVal.is_none dd = false) as ->
    by (destruct dd; [contradiction|reflexivity..]).
  split.
  - intros m ->. reflexivity.
  - intros e ->. reflexivity.
Qed.

Lemma unpack_needs_data_distribution_witness :
  exists m,
    unpack (E := Sample.externals) (PyInt 5) (PyInt 3) PyNone PyNone
      (PyStr "binomial") PyNone Sample.gen_args ∅
    = (["Forming Helmholtz machine"],
       Ok ([ModelHelmholtz m; ModelMLP (posterior m);
            ModelMLP (conditional m); ModelDistribution (prior m)],
           ∅, PyNone)).
Proof.
  destruct (unpack_needs_data_distribution Sample.externals
              (PyInt 5) (PyInt 3) PyNone PyNone PyNone Sample.gen_args ∅)
    as (_ & H).
  destruct (H (PyStr "binomial")) as (Hok & _); [discriminate|].
  eexists. apply Hok. vm_compute. reflexivity.
Defined.

(** ** The setup script: failed downloads *)

Lemma main_after_paths (w : Setup.env) (t0 : list Setup.event) :
  Setup.configure_paths w [] = (t0, Ok tt) ->
  Setup.main w [] = Setup.downloads w t0.
Proof.
  intros H. unfold Setup.main.
  change (Setup.seq (Setup.configure_paths w) (fun _ => Setup.downloads w) [] = Setup.downloads w t0).
  unfold Setup.seq. rewrite H. reflexivity.
Qed.

Lemma theanorc_trace (w : Setup.env) (t : list Setup.event) :
  Setup.theanorc w t = (t ++ theanorc_events w, Ok tt).
Proof.
  unfold Setup.theanorc, theanorc_events.
  destruct (Setup.isfile w _); simpl.
  - rewrite app_nil_r. reflexivity.
  - cbv [mbind Setup.prog_bind Setup.seq Setup.emit]. rewrite <- app_assoc. reflexivity.
Qed.

Lemma theanorc_events_no_fetch (w : Setup.env) :
  Setup.FetchBasicData ∉ theanorc_events w.
Proof.
  unfold theanorc_events. destruct (Setup.isfile w _).
  - apply not_elem_of_nil.
  - rewrite !not_elem_of_cons. repeat split; try discriminate.
    apply not_elem_of_nil.
Qed.

Ltac run_downloads :=
  unfold Setup.downloads;
  cbv [mbind mret Setup.prog_bind Setup.prog_ret Setup.seq Setup.emit
       Setup.call Setup.try_except Setup.ret Setup.is_HTTPError].

Ltac run_setup :=
  cbv [mbind mret Setup.prog_bind Setup.prog_ret Setup.seq Setup.emit
       Setup.call Setup.try_except Setup.ret Setup.raise Setup.is_HTTPError
       Setup.is_ValueError].

Ltac trace_mem :=
  repeat first [ rewrite elem_of_app | rewrite elem_of_cons
               | rewrite elem_of_nil ];
  intuition (try discriminate; try congruence).

Lemma ask_path_trace (w : Setup.env) (what : string) (known : option string)
    (t : list Setup.event) :
  exists prompt s, Setup.ask_path w what known t = (t ++ [Setup.RawInput prompt], Ok s).
Proof.
  unfold Setup.ask_path. destruct known as [d|]; run_setup;
    eexists; eexists; reflexivity.
Qed.

Lemma configure_paths_cases (w : Setup.env) :
  (exists t a b,
     Setup.configure_paths w [] = (t, Ok tt)
     /\ Setup.isdir w a = true /\ Setup.isdir w b = true
     /\ (forall a' b', Setup.WritePathConf a' b' ∈ t <-> a' = a /\ b' = b)
     /\ Forall is_path_event t)
  \/ (exists t e,
        Setup.configure_paths w [] = (t, Raise e)
        /\ (forall a b, Setup.WritePathConf a b ∉ t)
        /\ Forall is_path_event t).
Proof.
  unfold Setup.configure_paths. run_setup. simpl app.
  set (t0 := [_; _; _; _; _]).
  assert (Forall is_path_event t0) as Ht0 by (repeat constructor).
  set (got := match Setup.get_paths w with
              | Ok a => (t0, Ok a)
              | Raise e => _
              end).
  assert ((exists d, got = (t0, Ok d)) \/ (exists e, got = (t0, Raise e)))
    as [(d & Hg)|(e & Hg)].
  { subst got. destruct (Setup.get_paths w) as [d|[]]; eauto. }
  2:{ right. rewrite Hg. exists t0, e. split; [reflexivity|].
      split; [|exact Ht0]. subst t0. intros; trace_mem. }
  rewrite Hg.
  destruct (ask_path_trace w "Default data path: " (d !! "$data") t0)
    as (p1 & s1 & ->).
  destruct (Setup.isdir w (Setup.expanduser w s1)) eqn:Hd1;
    cbv beta iota delta [negb].
  2:{ right. eexists; eexists. split; [reflexivity|]. split.
      - subst t0. intros; trace_mem.
      - rewrite Forall_app. split; [exact Ht0|]. repeat constructor. }
  destruct (ask_path_trace w "Default output path: " (d !! "$outs")
              (t0 ++ [Setup.RawInput p1])) as (p2 & s2 & ->).
  destruct (Setup.isdir w (Setup.expanduser w s2)) eqn:Hd2;
    cbv beta iota delta [negb].
  2:{ right. eexists; eexists. split; [reflexivity|]. split.
      - subst t0. intros; trace_mem.
      - rewrite !Forall_app. repeat split; [exact Ht0|..]; repeat constructor. }
  left. eexists. exists (Setup.expanduser w s1), (Setup.expanduser w s2).
  split; [reflexivity|]. split; [exact Hd1|]. split; [exact Hd2|]. split.
  - subst t0. intros; trace_mem.
  - rewrite !Forall_app. repeat split; [exact Ht0|..]; repeat constructor.
Qed.

(** C7: once the paths are configured, [main] never ends with an
    HTTPError; when the fetch of the basic data raises HTTPError, the
    trace goes on with the warning, the notice and the question about
    the neuroimaging data, the fetch is not tried again, and a run that
    ends normally ends with the [.theanorc] step; when the fetch of the
    neuroimaging data raises HTTPError, the warning is printed, the
    [.theanorc] step follows, [main] ends normally and that fetch is the
    only one of the neuroimaging data in the trace. *)
Theorem fetch_failures_are_reported (w : Setup.env) (t0 : list Setup.event) :
  Setup.configure_paths w [] = (t0, Ok tt) ->
  snd (Setup.main w []) <> Raise HTTPError
  /\ (Setup.query_yes_no w Setup.basic_question = true ->
      Setup.fetch_basic_data w = Raise HTTPError ->
      exists rest,
        fst (Setup.main w []) = t0 ++ basic_failure_events ++ rest
        /\ (Setup.FetchBasicData ∉ rest)
        /\ (snd (Setup.main w []) = Ok tt ->
            exists mid, rest = mid ++ theanorc_events w))
  /\ (~ propagates (Setup.query_yes_no w Setup.basic_question)
           (Setup.fetch_basic_data w) ->
      Setup.query_yes_no w Setup.neuroimaging_question = true ->
      Setup.fetch_neuroimaging_data w = Raise HTTPError ->
      snd (Setup.main w []) = Ok tt
      /\ exists pre,
           fst (Setup.main w [])
           = pre ++ [Setup.FetchNeuroimagingData;
                     Setup.Print Setup.neuroimaging_warning]
                 ++ theanorc_events w
           /\ (Setup.FetchNeuroimagingData ∉ pre)
           /\ (Setup.FetchNeuroimagingData ∉ theanorc_events w)).
Proof.
  intros Hpaths.
  assert (Setup.FetchNeuroimagingData ∉ t0) as Hno.
  { destruct (configure_paths_cases w)
      as [(t & _ & _ & Ht & _ & _ & _ & HF)|(t & e & Ht & _)];
      rewrite Hpaths in Ht; [|discriminate Ht].
    injection Ht as <-. intros Hin. rewrite Forall_forall in HF.
    exact (HF _ Hin). }
  assert (Setup.FetchNeuroimagingData ∉ theanorc_events w) as Hno'.
  { unfold theanorc_events. destruct (Setup.isfile w _).
    - apply not_elem_of_nil.
    - rewrite !not_elem_of_cons. repeat split; try discriminate.
      apply not_elem_of_nil. }
  rewrite (main_after_paths w t0 Hpaths).
  split; [|split].
  - run_downloads.
    destruct (Setup.query_yes_no w Setup.basic_question),
      (Setup.fetch_basic_data w) as [[]|[]],
      (Setup.query_yes_no w Setup.neuroimaging_question),
      (Setup.fetch_neuroimaging_data w) as [[]|[]];
      rewrite ?theanorc_trace; simpl; discriminate.
  - intros Hyes Hfail. run_downloads. rewrite Hyes, Hfail.
    destruct (Setup.query_yes_no w Setup.neuroimaging_question),
      (Setup.fetch_neuroimaging_data w) as [[]|[]];
      rewrite ?theanorc_trace; simpl; rewrite <- ?app_assoc; simpl;
      (eexists; split; [reflexivity|]);
      (split;
       [ rewrite ?not_elem_of_cons; repeat split;
         try discriminate;
         first [ apply theanorc_events_no_fetch | apply not_elem_of_nil ]
       | intros Hr; try discriminate Hr ]).
    all: first [ exists []; reflexivity
               | eexists [_]; reflexivity
               | eexists [_; _]; reflexivity ].
  - intros Hbasic Hyes Hfail. run_downloads. rewrite Hyes, Hfail.
    unfold propagates in Hbasic.
    destruct (Setup.query_yes_no w Setup.basic_question),
      (Setup.fetch_basic_data w) as [[]|[]];
      rewrite ?theanorc_trace; simpl;
      try (exfalso; apply Hbasic; split; [reflexivity|];
           eexists; split; [reflexivity|discriminate]);
      (split; [reflexivity|]);
      rewrite <- ?app_assoc; simpl.
    all: first [ eexists (t0 ++ [_; _; _]);
                 split; [rewrite <- app_assoc; reflexivity|]
               | eexists (t0 ++ [_; _; _; _]);
                 split; [rewrite <- app_assoc; reflexivity|]
               | eexists (t0 ++ [_; _; _; _; _]);
                 split; [rewrite <- app_assoc; reflexivity|] ].
    all: split; [|exact Hno'].
    all: rewrite not_elem_of_app; split; [exact Hno|].
    all: rewrite !not_elem_of_cons; repeat split; try discriminate;
      apply not_elem_of_nil.
Qed.

Lemma fetch_failures_are_reported_witness :
  (exists rest,
     fst (Setup.main offline [])
     = fst (Setup.configure_paths offline []) ++ basic_failure_events ++ rest
     /\ (Setup.FetchBasicData ∉ rest)
     /\ snd (Setup.main offline []) = Ok tt)
  /\ (exists pre,
        fst (Setup.main offline [])
        = pre ++ [Setup.FetchNeuroimagingData;
                  Setup.Print Setup.neuroimaging_warning]
              ++ theanorc_events offline
        /\ (Setup.FetchNeuroimagingData ∉ pre)).
Proof.
  destruct (fetch_failures_are_reported offline
              (fst (Setup.configure_paths offline [])))
    as (_ & Hbasic & Hneuro).
  { vm_compute. reflexivity. }
  destruct (Hbasic eq_refl eq_refl) as (rest & Htrace & Hno & _).
  destruct Hneuro as (Hr & pre & Hpre & Hnopre & _); [|reflexivity|reflexivity|].
  { intros (_ & e & He & Hne). injection He as <-. apply Hne. reflexivity. }
  split.
  - exists rest. split; [exact Htrace|]. split; [exact Hno|exact Hr].
  - exists pre. split; [exact Hpre|exact Hnopre].
Defined.

(** ** The log marginal: the shift by the maximum *)

Section Shift.
#[local] Open Scope R_scope.

Lemma sum_exp_shift (m : R) (v : list R) :
  Numeric.sum (map (fun a => exp (a - m)) v)
  = exp (- m) * Numeric.sum (map exp v).
Proof.
  induction v as [|a v IH]; simpl.
  - lra.
  - rewrite IH. unfold Rminus. rewrite exp_plus. lra.
Qed.

Lemma sum_exp_pos (v : list R) : v <> [] -> 0 < Numeric.sum (map exp v).
Proof.
  destruct v as [|a v]; [congruence|]. intros _. simpl.
  assert (0 <= Numeric.sum (map exp v)) as H.
  { induction v as [|b v IH]; simpl; [lra|].
    pose proof (exp_pos b). lra. }
  pose proof (exp_pos a). lra.
Qed.

(** Any shift cancels, the maximum in particular. *)
Lemma shift_cancels (m : R) (v : list R) (n : Z) :
  v <> [] -> n = Z.of_nat (length v) ->
  ln (Numeric.mean (map (fun a => exp (a - m)) v)) + m = Numeric.log_p v n.
Proof.
  intros Hv ->. unfold Numeric.mean, Numeric.log_p, Numeric.log_sum_exp.
  rewrite length_map, sum_exp_shift, <- INR_IZR_INZ.
  assert (0 < INR (length v)) as Hn.
  { apply lt_0_INR. destruct v; [congruence|simpl; lia]. }
  pose proof (sum_exp_pos v Hv) as Hs.
  pose proof (exp_pos (- m)) as He.
  unfold Rdiv. rewrite ln_mult, ln_mult, ln_exp, ln_Rinv; try assumption.
  - lra.
  - apply Rmult_lt_0_compat; assumption.
  - apply Rinv_0_lt_compat; assumption.
Qed.

(** C8: on log-ratios of [n] samples per data point, read as real
    numbers, the shifted computation of [log_marginal] gives for each
    data point the value of [log_sum_exp(log_p, axis=0) - log(n)] of
    [__call__], and the value [log_marginal] returns is minus the
    '-log p(x)' of [__call__]. *)
Theorem log_marginal_shift_cancels (n : Z) (cols : list (list R)) :
  Forall (fun v => v <> [] /\ n = Z.of_nat (length v)) cols ->
  Forall (fun v => Numeric.log_marginal_column v = Numeric.log_p v n) cols
  /\ Numeric.log_marginal cols = - Numeric.neg_log_px cols n.
Proof.
  intros Hcols. split.
  - eapply Forall_impl; [exact Hcols|].
    intros v [Hv Hn]. apply shift_cancels; assumption.
  - unfold Numeric.log_marginal, Numeric.neg_log_px.
    rewrite Ropp_involutive. f_equal.
    induction Hcols as [|v cols [Hv Hn] _ IH]; simpl; [reflexivity|].
    rewrite IH. f_equal. apply shift_cancels; assumption.
Qed.

Lemma log_marginal_shift_cancels_witness :
  Numeric.log_marginal [[0; 1]; [2; 3]]
  = - Numeric.neg_log_px [[0; 1]; [2; 3]] 2.
Proof.
  apply (log_marginal_shift_cancels 2 [[0; 1]; [2; 3]]).
  repeat constructor; discriminate.
Defined.

End Shift.

(* ===================================================================== *)
(** * Further properties of the code *)
(* ===================================================================== *)

(** ** Slices of the parameter list *)

Lemma slice_is_segment {A : Type} (l : list A) (start stop : Z) :
  exists pre post, l = pre ++ PyVal.slice l start stop ++ post.
Proof.
  unfold PyVal.slice.
  set (lo := Z.to_nat (PyVal.clip (Z.of_nat (length l)) start)).
  set (k := Z.to_nat _).
  exists (take lo l), (drop k (drop lo l)).
  rewrite (take_drop k (drop lo l)), take_drop. reflexivity.
Qed.

Lemma slice_from_zero {A : Type} (l : list A) (n : Z) :
  0 <= n -> PyVal.slice l 0 n = take (Z.to_nat n) l.
Proof.
  intros Hn. unfold PyVal.slice, PyVal.clip.
  destruct (Z.ltb_spec n 0) as [?|_]; [lia|].
  change (0 <? 0) with false. cbv iota.
  rewrite (Z.min_l 0) by lia. rewrite Z.sub_0_r.
  change (Z.to_nat 0) with O. rewrite drop_0.
  destruct (Z.le_gt_cases n (Z.of_nat (length l))) as [Hle|Hgt].
  - rewrite Z.min_l by lia. reflexivity.
  - rewrite Z.min_r by lia. rewrite Nat2Z.id.
    rewrite (take_ge l (Z.to_nat n)) by lia. apply take_ge. lia.
Qed.

Lemma slice_past_the_end {A : Type} (l : list A) (start stop : Z) :
  Z.of_nat (length l) <= start -> PyVal.slice l start stop = [].
Proof.
  intros H. unfold PyVal.slice, PyVal.clip.
  destruct (Z.ltb_spec start 0) as [?|_]; [lia|].
  rewrite (Z.min_r start) by lia. rewrite Nat2Z.id, drop_all.
  apply take_nil.
Qed.

(** X1: on the list [get_params] returns, [p_y_given_h] feeds the
    conditional with exactly the conditional's parameters. *)
Theorem p_y_given_h_takes_conditional_params (h : helmholtz) (x : tensor) :
  params_coherent h ->
  p_y_given_h h x (get_params h)
  = MCall Conditional step_feed (x :: mlp_params (conditional h)).
Proof.
  intros (Hp & Hc & _). unfold p_y_given_h, get_params.
  rewrite Hp, Hc, slice_middle. reflexivity.
Qed.

Lemma p_y_given_h_takes_conditional_params_witness :
  p_y_given_h Sample.sbn (Var "h") (get_params Sample.sbn)
  = MCall Conditional step_feed [Var "h"; Var "W"; Var "b"].
Proof.
  apply (p_y_given_h_takes_conditional_params Sample.sbn (Var "h")).
  unfold params_coherent. simpl. lia.
Defined.

(** X2: the accessors never fail on a list of the wrong length: whatever
    the list, [get_prior_params] returns a prefix of it, with at most
    [n_params] elements, [get_posterior_params] a contiguous segment,
    and a list that stops before the posterior's parameters gives the
    empty list. *)
Theorem param_accessors_on_any_list (h : helmholtz) (ps : list tensor) :
  0 <= dist_n_params (prior h) ->
  0 <= mlp_n_params (conditional h) ->
  get_prior_params h ps = take (Z.to_nat (dist_n_params (prior h))) ps
  /\ (exists pre post, ps = pre ++ get_posterior_params h ps ++ post)
  /\ (Z.of_nat (length ps)
        <= dist_n_params (prior h) + mlp_n_params (conditional h) ->
      get_posterior_params h ps = []).
Proof.
  intros Hp Hc. unfold get_prior_params, get_posterior_params.
  split; [apply slice_from_zero, Hp|]. split.
  - apply slice_is_segment.
  - intros Hshort. apply slice_past_the_end, Hshort.
Qed.

Lemma param_accessors_on_any_list_witness :
  get_prior_params Sample.sbn [] = []
  /\ get_posterior_params Sample.sbn [Var "z"; Var "W"] = [].
Proof.
  destruct (param_accessors_on_any_list Sample.sbn []) as (H1 & _ & _);
    [simpl; lia | simpl; lia |].
  destruct (param_accessors_on_any_list Sample.sbn [Var "z"; Var "W"])
    as (_ & _ & H2); [simpl; lia | simpl; lia |].
  split; [exact H1|]. apply H2. simpl. lia.
Defined.

(** ** [set_params] *)

Lemma string_length_app (s t : string) :
  String.length (s +:+ t) = (String.length s + String.length t)%nat.
Proof. induction s as [|a s IH]; simpl; [reflexivity|]. rewrite IH. reflexivity. Qed.

Lemma set_params_times_S (k : nat) (h : helmholtz) :
  set_params_times (S k) h = set_params (set_params_times k h).
Proof. reflexivity. Qed.

Lemma set_params_times_frame (k : nat) (h : helmholtz) :
  name (set_params_times k h) = name h
  /\ get_params (set_params_times k h) = get_params h
  /\ dim_h (set_params_times k h) = dim_h h
  /\ dist_name (prior (set_params_times k h))
     = prefixed k (name h) (dist_name (prior h)).
Proof.
  induction k as [|k (IHn & IHp & IHd & IHs)].
  - repeat split.
  - rewrite set_params_times_S. repeat split.
    + exact IHn.
    + rewrite <- IHp. reflexivity.
    + exact IHd.
    + simpl. rewrite IHn. unfold prefixed in *. simpl. rewrite <- IHs.
      reflexivity.
Qed.

(** X3: [set_params] renames and nothing else: the parameters, their
    counts, the latent dimension and the model's own name stay, [params]
    is emptied; the posterior is named [name + '_posterior'], the
    conditional [name + '_conditional'] and the prior [name + '_' +] its
    old name.  A second call leaves the names of the posterior and of
    the conditional as they are, but puts the model's name in front of
    the prior's name once more, so after [k] calls the prior carries the
    prefix [k] times. *)
Theorem set_params_renames (h : helmholtz) (k : nat) :
  get_params (set_params h) = get_params h
  /\ (mlp_n_params (posterior (set_params h)) = mlp_n_params (posterior h)
      /\ mlp_n_params (conditional (set_params h))
         = mlp_n_params (conditional h)
      /\ dist_n_params (prior (set_params h)) = dist_n_params (prior h))
  /\ (params_coherent h -> params_coherent (set_params h))
  /\ dim_h (set_params h) = dim_h h
  /\ name (set_params h) = name h
  /\ params (set_params h) = ∅
  /\ (mlp_name (posterior (set_params h)) = name h +:+ "_posterior"
      /\ mlp_name (conditional (set_params h)) = name h +:+ "_conditional"
      /\ dist_name (prior (set_params h))
         = name h +:+ "_" +:+ dist_name (prior h))
  /\ mlp_name (posterior (set_params (set_params h)))
     = mlp_name (posterior (set_params h))
  /\ mlp_name (conditional (set_params (set_params h)))
     = mlp_name (conditional (set_params h))
  /\ dist_name (prior (set_params_times k h))
     = prefixed k (name h) (dist_name (prior h))
  /\ String.length (dist_name (prior (set_params_times k h)))
     = (k * S (String.length (name h))
        + String.length (dist_name (prior h)))%nat.
Proof.
  split; [reflexivity|].
  split; [split; [reflexivity|split; reflexivity]|].
  split; [intros H; exact H|].
  split; [reflexivity|]. split; [reflexivity|]. split; [reflexivity|].
  split; [split; [reflexivity|split; reflexivity]|].
  split; [reflexivity|]. split; [reflexivity|].
  destruct (set_params_times_frame k h) as (_ & _ & _ & Hs).
  split; [exact Hs|]. rewrite Hs. clear Hs. unfold prefixed.
  induction k as [|k IH]; [reflexivity|].
  simpl Nat.iter. rewrite !string_length_app, IH. simpl. lia.
Qed.

Lemma set_params_renames_witness :
  params_coherent (set_params Sample.sbn)
  /\ mlp_name (posterior (set_params Sample.sbn)) = "sbn_posterior"
  /\ mlp_name (conditional (set_params Sample.sbn)) = "sbn_conditional"
  /\ dist_name (prior (set_params_times 2 Sample.sbn)) = "sbn_sbn_prior".
Proof.
  destruct (set_params_renames Sample.sbn 2)
    as (_ & _ & Hc & _ & _ & _ & (Hq & Hg & _) & _ & _ & Hs & _).
  split; [apply Hc; unfold params_coherent; simpl; lia|].
  split; [exact Hq|]. split; [exact Hg|exact Hs].
Defined.

(** ** [__call__]: what the flags change and what they leave alone *)

Ltac run_call Hq :=
  unfold __call__, init_inference_samples, distribution_of; rewrite Hq;
  cbv beta iota zeta delta [mbind result_bind Py.bind].

(** The entries of the outputs that are read off the graph directly. *)
Lemma call_entries (i : Node.inputs) (qdist : distribution)
    (pass_gradients reweight reweight_gen_only sleep_phase : bool) :
  mlp_distribution (posterior (Node.self i)) = Some qdist ->
  exists out,
    __call__ (Node.self i) (Node.x i) (Node.y i) (Node.qk i)
      (Node.n_posterior_samples i)
      pass_gradients reweight reweight_gen_only sleep_phase = Ok out
    /\ samples out = expected_samples i
    /\ updates out = []
    /\ results out !! "-log p(x)" = Some (Neg (Mean (Node.log_p i) (Some 0) false))
    /\ results out !! "-log p(x|h)" = Some (Mean (Node.recon_term i) None false)
    /\ results out !! "H(p)" = Some (MCall Prior entropy [])
    /\ results out !! "H(q)" = Some (Mean (Node.q_entropy i) (Some 0) false)
    /\ results out !! "log ESS"
       = Some (Mean (Log (Div (FloatLit 1)
                              (Sum (Pow (Node.w_tilde i) (IntLit 2)) [0])))
                    None false)
    /\ results out !! "lower_bound"
       = Some (Neg (Mean (Add (Node.recon_term i)
                              (Node.KL_term i reweight reweight_gen_only))
                         None false))
    /\ results out !! "KL(q_k||p)"
       = (if uses_prior_kl (Node.self i) reweight reweight_gen_only
          then Some (MCall Prior kl_divergence [Node.qk' i]) else None)
    /\ results out !! "-log p(h)"
       = (if uses_prior_kl (Node.self i) reweight reweight_gen_only
          then None else Some (Mean (Neg (Node.log_ph i)) None false))
    /\ results out !! "KL(q_k||q_0)"
       = (if negb pass_gradients
             && uses_posterior_kl qdist reweight reweight_gen_only
          then Some (Node.posterior_term i qdist false reweight reweight_gen_only)
          else None)
    /\ results out !! "-log q(h)"
       = (if negb pass_gradients
             && negb (uses_posterior_kl qdist reweight reweight_gen_only)
          then Some (Neg (Mean (Node.log_qh0 i) None false))
          else None).
Proof.
  intros Hq. destruct i as [self x y qk n]. simpl in Hq |- *.
  run_call Hq.
  unfold uses_prior_kl, uses_posterior_kl, Node.KL_term, Node.posterior_term.
  simpl Node.self.
  destruct qk as [q|], pass_gradients, reweight, reweight_gen_only, sleep_phase,
    (dist_has_kl (prior self)), (dist_has_kl qdist);
    cbv beta iota zeta delta [negb andb orb];
    (eexists; split; [reflexivity|]);
    (split; [reflexivity|]); (split; [reflexivity|]);
    repeat (split; [vm_compute; reflexivity|]); vm_compute; reflexivity.
Qed.

(** X4: whatever the flags, the array results are [py], [batch_energies]
    and [w_tilde], no updates are returned, and the estimates
    '-log p(x)', '-log p(x|h)', 'H(p)', 'H(q)' and 'log ESS' are the
    same: two calls that differ only in [pass_gradients], [reweight],
    [reweight_gen_only] and [sleep_phase] agree on all of them. *)
Theorem flags_leave_estimates_alone (i : Node.inputs) (qdist : distribution)
    (p1 r1 g1 s1 p2 r2 g2 s2 : bool) :
  mlp_distribution (posterior (Node.self i)) = Some qdist ->
  exists out1 out2,
    __call__ (Node.self i) (Node.x i) (Node.y i) (Node.qk i)
      (Node.n_posterior_samples i) p1 r1 g1 s1 = Ok out1
    /\ __call__ (Node.self i) (Node.x i) (Node.y i) (Node.qk i)
      (Node.n_posterior_samples i) p2 r2 g2 s2 = Ok out2
    /\ samples out1 = expected_samples i
    /\ samples out2 = samples out1
    /\ updates out1 = [] /\ updates out2 = []
    /\ Forall (fun k => results out1 !! k = results out2 !! k
                        /\ is_Some (results out1 !! k))
         ["-log p(x)"; "-log p(x|h)"; "H(p)"; "H(q)"; "log ESS"].
Proof.
  intros Hq.
  destruct (call_entries i qdist p1 r1 g1 s1 Hq)
    as (out1 & Hrun1 & Hs1 & Hu1 & Ha1 & Hb1 & Hc1 & Hd1 & He1 & _).
  destruct (call_entries i qdist p2 r2 g2 s2 Hq)
    as (out2 & Hrun2 & Hs2 & Hu2 & Ha2 & Hb2 & Hc2 & Hd2 & He2 & _).
  exists out1, out2. split; [exact Hrun1|]. split; [exact Hrun2|].
  split; [exact Hs1|]. split; [congruence|].
  split; [exact Hu1|]. split; [exact Hu2|].
  repeat constructor; try congruence; eauto.
Qed.

Lemma flags_leave_estimates_alone_witness :
  exists out1 out2,
    __call__ Sample.sbn (Var "x") (Var "y") None 10 false false false false
      = Ok out1
    /\ __call__ Sample.sbn (Var "x") (Var "y") None 10 true true false true
      = Ok out2
    /\ samples out2 = samples out1
    /\ results out1 !! "log ESS" = results out2 !! "log ESS".
Proof.
  destruct (flags_leave_estimates_alone sample_inputs Sample.binomial
              false false false false true true false true eq_refl)
    as (out1 & out2 & H1 & H2 & _ & Hs & _ & _ & Hk).
  exists out1, out2. split; [exact H1|]. split; [exact H2|].
  split; [exact Hs|].
  apply Forall_forall with (x := "log ESS") in Hk; [apply Hk|].
  set_solver.
Defined.

(** X5: of 'KL(q_k||p)' and '-log p(h)' exactly one is in the results:
    the KL divergence when the prior has one and neither [reweight] nor
    [reweight_gen_only] is set, the mean prior energy otherwise; of
    'KL(q_k||q_0)' and '-log q(h)' none is there when gradients are
    passed, and exactly one otherwise, by the same rule on the
    distribution of the posterior; 'lower_bound' is minus the mean of
    recon_term + KL_term and does not contain the posterior term. *)
Theorem call_optional_entries (i : Node.inputs) (qdist : distribution)
    (pass_gradients reweight reweight_gen_only sleep_phase : bool) :
  mlp_distribution (posterior (Node.self i)) = Some qdist ->
  exists out,
    __call__ (Node.self i) (Node.x i) (Node.y i) (Node.qk i)
      (Node.n_posterior_samples i)
      pass_gradients reweight reweight_gen_only sleep_phase = Ok out
    /\ results out !! "KL(q_k||p)"
       = (if uses_prior_kl (Node.self i) reweight reweight_gen_only
          then Some (MCall Prior kl_divergence [Node.qk' i]) else None)
    /\ results out !! "-log p(h)"
       = (if uses_prior_kl (Node.self i) reweight reweight_gen_only
          then None else Some (Mean (Neg (Node.log_ph i)) None false))
    /\ results out !! "KL(q_k||q_0)"
       = (if negb pass_gradients
             && uses_posterior_kl qdist reweight reweight_gen_only
          then Some (MCall PosteriorDistribution step_kl_divergence
                       [Node.qk' i;
                        Splat (MCall PosteriorDistribution split_prob
                                 [Node.q0 i])])
          else None)
    /\ results out !! "-log q(h)"
       = (if negb pass_gradients
             && negb (uses_posterior_kl qdist reweight reweight_gen_only)
          then Some (Neg (Mean (Node.log_qh0 i) None false))
          else None)
    /\ results out !! "lower_bound"
       = Some (Neg (Mean (Add (Node.recon_term i)
                              (Node.KL_term i reweight reweight_gen_only))
                         None false)).
Proof.
  intros Hq.
  destruct (call_entries i qdist pass_gradients reweight reweight_gen_only
              sleep_phase Hq)
    as (out & Hrun & _ & _ & _ & _ & _ & _ & _ & Hlb & Hk1 & Hk2 & Hk3 & Hk4).
  exists out. split; [exact Hrun|]. split; [exact Hk1|]. split; [exact Hk2|].
  split; [|split; [exact Hk4|exact Hlb]].
  rewrite Hk3. unfold Node.posterior_term, uses_posterior_kl.
  destruct pass_gradients, (dist_has_kl qdist), reweight, reweight_gen_only;
    reflexivity.
Qed.

Lemma call_optional_entries_witness :
  exists out,
    __call__ Sample.sbn (Var "x") (Var "y") None 10 false false false false
      = Ok out
    /\ results out !! "KL(q_k||p)" = None
    /\ is_Some (results out !! "-log p(h)").
Proof.
  destruct (call_optional_entries sample_inputs Sample.binomial
              false false false false eq_refl)
    as (out & Hrun & Hk1 & Hk2 & _).
  exists out. split; [exact Hrun|]. split; [exact Hk1|].
  rewrite Hk2. eexists. reflexivity.
Defined.

(** X6: [sleep_phase] changes the cost and the constants and nothing
    else: with the other arguments equal, the call with and the call
    without it return the same samples and, apart from 'cost', the same
    results. *)
Theorem sleep_phase_changes_cost_only (self : helmholtz) (qdist : distribution)
    (x y : tensor) (qk : option tensor) (n : Z)
    (pass_gradients reweight reweight_gen_only : bool) :
  mlp_distribution (posterior self) = Some qdist ->
  exists awake asleep,
    __call__ self x y qk n pass_gradients reweight reweight_gen_only false
      = Ok awake
    /\ __call__ self x y qk n pass_gradients reweight reweight_gen_only true
      = Ok asleep
    /\ samples awake = samples asleep
    /\ delete "cost" (results awake) = delete "cost" (results asleep).
Proof.
  intros Hq. run_call Hq.
  destruct qk as [q|], pass_gradients, reweight, reweight_gen_only,
    (dist_has_kl (prior self)), (dist_has_kl qdist);
    cbv beta iota zeta delta [negb andb orb];
    (eexists; eexists; split; [reflexivity|]; split; [reflexivity|]);
    (split; [reflexivity|]); simpl results.
  all: rewrite !(delete_insert_ne _ "cost") by discriminate.
  all: rewrite !delete_insert_eq.
  all: reflexivity.
Qed.

Lemma sleep_phase_changes_cost_only_witness :
  exists awake asleep,
    __call__ Sample.sbn (Var "x") (Var "y") None 10 false false false false
      = Ok awake
    /\ __call__ Sample.sbn (Var "x") (Var "y") None 10 false false false true
      = Ok asleep
    /\ delete "cost" (results awake) = delete "cost" (results asleep).
Proof.
  destruct (sleep_phase_changes_cost_only Sample.sbn Sample.binomial
              (Var "x") (Var "y") None 10 false false false eq_refl)
    as (awake & asleep & H1 & H2 & _ & Hd).
  exists awake, asleep. split; [exact H1|]. split; [exact H2|exact Hd].
Defined.

(** X7: the constants are, in this order, [qk] when it was passed and
    gradients are not passed through it, and [w_tilde] when [reweight]
    or [reweight_gen_only] is set; the sleep phase apart, nothing else
    is held constant, and a call without [qk] and without flags holds
    nothing constant. *)
Theorem call_constants (i : Node.inputs) (qdist : distribution)
    (pass_gradients reweight reweight_gen_only : bool) :
  mlp_distribution (posterior (Node.self i)) = Some qdist ->
  exists out,
    __call__ (Node.self i) (Node.x i) (Node.y i) (Node.qk i)
      (Node.n_posterior_samples i)
      pass_gradients reweight reweight_gen_only false = Ok out
    /\ constants out =
         match Node.qk i with
         | Some q => if pass_gradients then [] else [q]
         | None => []
         end
         ++ (if reweight || reweight_gen_only then [Node.w_tilde i] else [])
    /\ (length (constants out) <= 2)%nat
    /\ (Node.qk i = None -> reweight = false -> reweight_gen_only = false ->
        constants out = []).
Proof.
  intros Hq.
  destruct (call_returns i qdist pass_gradients reweight reweight_gen_only
              false Hq) as (out & Hrun & _ & _ & Hc).
  exists out. split; [exact Hrun|]. unfold Node.constants0 in Hc.
  split; [exact Hc|]. rewrite Hc. split.
  - destruct (Node.qk i), pass_gradients, reweight, reweight_gen_only;
      simpl; lia.
  - intros -> -> ->. reflexivity.
Qed.

Lemma call_constants_witness :
  exists out,
    __call__ Sample.sbn (Var "x") (Var "y") None 10 false false false false
      = Ok out
    /\ constants out = [].
Proof.
  destruct (call_constants sample_inputs Sample.binomial false false false
              eq_refl) as (out & Hrun & _ & _ & Hnone).
  exists out. split; [exact Hrun|]. apply Hnone; reflexivity.
Defined.

(** X8: passing the output of the recognition network as [qk] gives the
    results and samples of the call without [qk]; the constants are
    those of that call with [qk] in front, unless gradients are passed. *)
Theorem call_default_qk (self : helmholtz) (qdist : distribution)
    (x y : tensor) (n : Z)
    (pass_gradients reweight reweight_gen_only sleep_phase : bool) :
  mlp_distribution (posterior self) = Some qdist ->
  exists out out',
    __call__ self x y None n
      pass_gradients reweight reweight_gen_only sleep_phase = Ok out
    /\ __call__ self x y (Some (MCall Posterior feed [x])) n
         pass_gradients reweight reweight_gen_only sleep_phase = Ok out'
    /\ results out' = results out
    /\ samples out' = samples out
    /\ constants out' =
         (if pass_gradients then [] else [MCall Posterior feed [x]])
         ++ constants out.
Proof.
  intros Hq. run_call Hq.
  destruct pass_gradients, reweight, reweight_gen_only, sleep_phase,
    (dist_has_kl (prior self)), (dist_has_kl qdist);
    cbv beta iota zeta delta [negb andb orb];
    (eexists; eexists; split; [reflexivity|]; split; [reflexivity|]);
    repeat split; reflexivity.
Qed.

Lemma call_default_qk_witness :
  exists out out',
    __call__ Sample.sbn (Var "x") (Var "y") None 10 false false false false
      = Ok out
    /\ __call__ Sample.sbn (Var "x") (Var "y")
         (Some (MCall Posterior feed [Var "x"])) 10 false false false false
       = Ok out'
    /\ results out' = results out
    /\ constants out' = MCall Posterior feed [Var "x"] :: constants out.
Proof.
  destruct (call_default_qk Sample.sbn Sample.binomial (Var "x") (Var "y") 10
              false false false false eq_refl)
    as (out & out' & H1 & H2 & Hr & _ & Hc).
  exists out, out'. split; [exact H1|]. split; [exact H2|].
  split; [exact Hr|exact Hc].
Defined.

(** X9: the methods that go through [.distribution] raise
    AttributeError on a network without one: [__call__] and
    [init_inference_samples] for the posterior, whatever the arguments,
    [visualize_latents] for the conditional; with a distribution the
    latter two return their graph. *)
Theorem methods_need_distributions (self : helmholtz) :
  (mlp_distribution (posterior self) = None ->
     (forall x y qk n pg rw rwg sl,
        __call__ self x y qk n pg rw rwg sl
        = Raise (AttributeError "prototype_samples"))
     /\ (forall size,
           init_inference_samples self size
           = Raise (AttributeError "prototype_samples")))
  /\ (mlp_distribution (conditional self) = None ->
      visualize_latents self = Raise (AttributeError "visualize"))
  /\ (is_Some (mlp_distribution (posterior self)) ->
      forall size,
        init_inference_samples self size
        = Ok (MCall PosteriorDistribution prototype_samples [size]))
  /\ (is_Some (mlp_distribution (conditional self)) ->
      Py.returns (visualize_latents self)).
Proof.
  split; [|split; [|split]].
  - intros Hq. split.
    + intros x y qk n pg rw rwg sl.
      unfold __call__, init_inference_samples, distribution_of. rewrite Hq.
      destruct qk, pg; reflexivity.
    + intros size. unfold init_inference_samples, distribution_of.
      rewrite Hq. reflexivity.
  - intros Hc. unfold visualize_latents, distribution_of. rewrite Hc.
    reflexivity.
  - intros [d Hd] size. unfold init_inference_samples, distribution_of.
    rewrite Hd. reflexivity.
  - intros [d Hd]. unfold visualize_latents, distribution_of. rewrite Hd.
    eexists. reflexivity.
Qed.

Lemma methods_need_distributions_witness :
  __call__ bare (Var "x") (Var "y") None 10 false false false false
    = Raise (AttributeError "prototype_samples")
  /\ visualize_latents bare = Raise (AttributeError "visualize")
  /\ Py.returns (visualize_latents Sample.sbn).
Proof.
  destruct (methods_need_distributions bare) as (Hq & Hc & _).
  destruct (methods_need_distributions Sample.sbn) as (_ & _ & _ & Hv).
  split; [apply Hq; reflexivity|]. split; [apply Hc; reflexivity|].
  apply Hv. eexists. reflexivity.
Defined.

(** ** [set_tparams] and [get_decay_params]: the order of the updates *)

(** X10: in [set_tparams] a later update wins: a name the prior
    provides comes from the prior, otherwise from the conditional,
    otherwise from the posterior, otherwise from [Layer.set_tparams],
    and a name none of them provides is absent; in [get_decay_params]
    the conditional wins over the posterior. *)
Theorem later_updates_win (E : Externals) (h : helmholtz) (k : string) :
  (forall v, dist_set_tparams (prior h) !! k = Some v ->
     set_tparams h !! k = Some v)
  /\ (dist_set_tparams (prior h) !! k = None ->
      forall v, mlp_set_tparams (conditional h) !! k = Some v ->
        set_tparams h !! k = Some v)
  /\ (dist_set_tparams (prior h) !! k = None ->
      mlp_set_tparams (conditional h) !! k = None ->
      forall v, mlp_set_tparams (posterior h) !! k = Some v ->
        set_tparams h !! k = Some v)
  /\ (dist_set_tparams (prior h) !! k = None ->
      mlp_set_tparams (conditional h) !! k = None ->
      mlp_set_tparams (posterior h) !! k = None ->
      set_tparams h !! k = Layer_set_tparams h !! k)
  /\ (forall v, mlp_decay_params (conditional h) !! k = Some v ->
        get_decay_params h !! k = Some v)
  /\ (mlp_decay_params (conditional h) !! k = None ->
      get_decay_params h !! k = mlp_decay_params (posterior h) !! k).
Proof.
  unfold set_tparams, get_decay_params, update.
  repeat split; intros; rewrite !lookup_union, ?lookup_empty;
    repeat match goal with
           | H : _ !! k = _ |- _ => rewrite H; clear H
           end;
    try reflexivity;
    repeat match goal with
           | |- context [?m !! k] => destruct (m !! k)
           end; reflexivity.
Qed.

Lemma later_updates_win_witness :
  set_tparams (E := colliding) decaying !! "z"
  = Some (Var (dist_name (Helmholtz.prior decaying) +:+ ".z"))
  /\ set_tparams (E := colliding) decaying !! "W" = Some (Var "c.W")
  /\ set_tparams (E := colliding) decaying !! "b" = None
  /\ get_decay_params decaying !! "W" = Some (Var "c.W")
  /\ get_decay_params decaying !! "U" = Some (Var "q.U").
Proof.
  destruct (later_updates_win colliding decaying "z") as (Hz & _).
  destruct (later_updates_win colliding decaying "W")
    as (_ & HW & _ & _ & HdW & _).
  destruct (later_updates_win colliding decaying "b") as (_ & _ & _ & Hb & _).
  destruct (later_updates_win colliding decaying "U")
    as (_ & _ & _ & _ & _ & HdU).
  split; [apply Hz; reflexivity|].
  split; [apply HW; reflexivity|].
  split; [rewrite Hb; reflexivity|].
  split; [apply HdW; reflexivity|].
  rewrite HdU; reflexivity.
Defined.

(** ** [mlp_factory]: defaults, requirements and the 'dag' branch *)

Lemma get_then_subscript (v : pyval) (k : string) (d : pyval) :
  PyVal.get v k = Ok d -> PyVal.is_none d = false ->
  PyVal.subscript v k = Ok d.
Proof.
  destruct v; simpl; try discriminate. unfold PyVal.dict_get.
  destruct (d0 !! k) as [x|]; simpl; intros [= <-]; [reflexivity|discriminate].
Qed.

(** X11: without [prior], [mlp_factory] behaves as with the prior that
    [rec_args['distribution']] names, and as with 'binomial' when
    [rec_args] names none. *)
Theorem mlp_factory_default_prior (E : Externals)
    (dim_in dim_h dim_out dd rec_args gen_args d : pyval) :
  PyVal.get (args_or_empty rec_args) "distribution" = Ok d ->
  mlp_factory dim_in dim_h dim_out dd PyNone rec_args gen_args
  = mlp_factory dim_in dim_h dim_out dd
      (if PyVal.is_none d then PyStr "binomial" else d) rec_args gen_args.
Proof.
  intros Hd. unfold mlp_factory. simpl PyVal.is_none at 1. cbv iota.
  rewrite Hd. simpl.
  destruct (PyVal.is_none d) eqn:Hn; simpl.
  - reflexivity.
  - rewrite Hn. rewrite (get_then_subscript _ _ _ Hd Hn). reflexivity.
Qed.

Lemma mlp_factory_default_prior_witness :
  mlp_factory (E := Sample.externals) (PyInt 5) (PyInt 3) (PyInt 5)
    (PyStr "binomial") PyNone
    (PyDict (<["distribution" := PyStr "gaussian"]> ∅)) Sample.gen_args
  = mlp_factory (E := Sample.externals) (PyInt 5) (PyInt 3) (PyInt 5)
      (PyStr "binomial") (PyStr "gaussian")
      (PyDict (<["distribution" := PyStr "gaussian"]> ∅)) Sample.gen_args.
Proof.
  apply (mlp_factory_default_prior Sample.externals (PyInt 5) (PyInt 3)
           (PyInt 5) (PyStr "binomial")
           (PyDict (<["distribution" := PyStr "gaussian"]> ∅))
           Sample.gen_args (PyStr "gaussian")).
  reflexivity.
Defined.

Lemma subscript_Ok (v : pyval) (k : string) (x : pyval) :
  PyVal.subscript v k = Ok x -> exists d, v = PyDict d /\ d !! k = Some x.
Proof.
  destruct v; simpl; try discriminate.
  destruct (d !! k) eqn:Hk; intros [= <-]. eexists. split; [reflexivity|exact Hk].
Qed.

Lemma as_key_Ok (v : pyval) (s : string) :
  PyVal.as_key v = Ok s -> v = PyStr s.
Proof. destruct v; simpl; intros [= <-]; reflexivity. Qed.

(** What one round of the loop does to arguments it accepts. *)
Lemma dag_assign_Ok (output_name dim_out dd gen_args g : pyval) :
  dag_assign output_name dim_out dd gen_args = Ok g ->
  exists key d graph outs,
    output_name = PyStr key
    /\ gen_args = PyDict d
    /\ d !! "graph" = Some (PyDict graph)
    /\ graph !! "outs" = Some (PyDict outs)
    /\ g = PyDict (<["graph" :=
           PyDict (<["outs" :=
             PyDict (<[key := dag_entry dim_out dd]> outs)]> graph)]> d).
Proof.
  unfold dag_assign. intros H. peel H.
  apply subscript_Ok in Ha as (d & -> & Hd).
  apply subscript_Ok in Ha0 as (graph & -> & Hg).
  apply as_key_Ok in Ha1 as ->.
  apply setitem_Ok in Ha2 as (outs & -> & ->).
  simpl in Ha3. injection Ha3 as <-. simpl in H. injection H as <-.
  exists a1, d, graph, outs. repeat split; assumption.
Qed.

Lemma dag_assign_again (output_name dim_out dd gen_args g : pyval) :
  dag_assign output_name dim_out dd gen_args = Ok g ->
  dag_assign output_name dim_out dd g = Ok g.
Proof.
  intros H.
  apply dag_assign_Ok in H as (key & d & graph & outs & -> & -> & _ & _ & ->).
  unfold dag_assign, dag_entry. simpl.
  rewrite lookup_insert_eq. simpl. rewrite lookup_insert_eq. simpl.
  rewrite !insert_insert_eq. reflexivity.
Qed.

(** X12: for an output name that is a string, the loop of the 'dag'
    branch writes one entry, however many outputs the graph lists: any
    positive number of rounds is one assignment, and no round leaves
    the arguments untouched.  The assignment goes through when there
    are dictionaries under 'graph' and 'outs', and only then; it puts
    [dict(dim=dim_out, distribution=data_distribution)] under the
    output name and keeps the other entries of 'outs'. *)
Theorem dag_loop_writes_one_entry (key : string) (dim_out dd gen_args : pyval)
    (rounds : nat) :
  dag_loop 0 (PyStr key) dim_out dd gen_args = Ok gen_args
  /\ dag_loop (S rounds) (PyStr key) dim_out dd gen_args
     = dag_assign (PyStr key) dim_out dd gen_args
  /\ (forall d graph outs,
        gen_args = PyDict d ->
        d !! "graph" = Some (PyDict graph) ->
        graph !! "outs" = Some (PyDict outs) ->
        dag_loop (S rounds) (PyStr key) dim_out dd gen_args
        = Ok (PyDict (<["graph" :=
            PyDict (<["outs" :=
              PyDict (<[key := dag_entry dim_out dd]> outs)]> graph)]> d)))
  /\ (forall g,
        dag_loop (S rounds) (PyStr key) dim_out dd gen_args = Ok g ->
        (exists d graph outs,
           gen_args = PyDict d
           /\ d !! "graph" = Some (PyDict graph)
           /\ graph !! "outs" = Some (PyDict outs))
        /\ outs_entry g key = Some (dag_entry dim_out dd)
        /\ forall other, other <> key ->
             outs_entry g other = outs_entry gen_args other).
Proof.
  split; [reflexivity|].
  assert (dag_loop (S rounds) (PyStr key) dim_out dd gen_args
          = dag_assign (PyStr key) dim_out dd gen_args) as Hloop.
  { revert gen_args. induction rounds as [|n IH]; intros gen_args.
    - simpl. destruct (dag_assign _ _ _ gen_args); reflexivity.
    - change (dag_loop (S (S n)) (PyStr key) dim_out dd gen_args)
        with (dag_assign (PyStr key) dim_out dd gen_args
                ≫= dag_loop (S n) (PyStr key) dim_out dd).
      destruct (dag_assign (PyStr key) dim_out dd gen_args) as [g|e] eqn:Hg;
        [|reflexivity].
      simpl. change (dag_loop (S n) (PyStr key) dim_out dd g = Ok g).
      rewrite IH. apply dag_assign_again with gen_args, Hg. }
  split; [exact Hloop|]. split.
  - intros d graph outs -> Hd Ho. rewrite Hloop.
    unfold dag_assign, dag_entry. simpl. rewrite Hd. simpl. rewrite Ho.
    reflexivity.
  - intros g Hg. rewrite Hloop in Hg.
    apply dag_assign_Ok in Hg
      as (key' & d & graph & outs & [= <-] & -> & Hd & Ho & ->).
    split; [exists d, graph, outs; repeat split; assumption|].
    unfold outs_entry.
    rewrite !lookup_insert_eq, Hd, Ho. split; [reflexivity|].
    intros other Hne. apply lookup_insert_ne. congruence.
Qed.

Lemma dag_loop_writes_one_entry_witness :
  exists g,
    dag_loop 3 (PyStr "x") (PyInt 7) (PyStr "binomial") dag_args = Ok g
    /\ outs_entry g "x" = Some (dag_entry (PyInt 7) (PyStr "binomial"))
    /\ outs_entry g "y" = Some (PyInt 1).
Proof.
  destruct (dag_loop_writes_one_entry "x" (PyInt 7) (PyStr "binomial")
              dag_args 2) as (_ & _ & _ & H).
  destruct (dag_loop 3 (PyStr "x") (PyInt 7) (PyStr "binomial") dag_args)
    as [g|e] eqn:Hg; [|vm_compute in Hg; discriminate Hg].
  destruct (H g eq_refl) as (_ & Hx & Hy).
  exists g. split; [reflexivity|]. split; [exact Hx|].
  rewrite Hy by discriminate. reflexivity.
Defined.

Lemma mlp_factory_Ok_inv (E : Externals)
    (dim_in dim_h dim_out dd prior rec_args gen_args : pyval)
    (q c : mlp) (p : distribution) :
  mlp_factory dim_in dim_h dim_out dd prior rec_args gen_args = Ok (q, c, p) ->
  (exists d o, gen_args = PyDict d /\ d !! "output" = Some o)
  /\ (rec_args = PyNone \/ exists d, rec_args = PyDict d)
  /\ is_Some (mlp_distribution q)
  /\ is_Some (mlp_distribution c).
Proof.
  intros H. unfold mlp_factory in H. peel H. injection H as -> -> ->.
  apply assert_Ok, bool_decide_eq_true in Ha15, Ha16.
  apply subscript_Ok in Ha9 as (d & Hd & Ho).
  repeat split; try assumption.
  - exists d, a9. split; [|exact Ho].
    destruct gen_args; simpl in Hd; try discriminate Hd; [|exact Hd].
    injection Hd as <-. rewrite lookup_empty in Ho. discriminate Ho.
  - destruct rec_args; simpl in Ha3; try discriminate Ha3; eauto.
Qed.

(** X13: [mlp_factory] returns only when [gen_args] is a dictionary
    with an 'output' entry and [rec_args] is [None] or a dictionary;
    the two networks it returns have a distribution. *)
Theorem mlp_factory_requirements (E : Externals)
    (dim_in dim_h dim_out dd prior rec_args gen_args : pyval)
    (q c : mlp) (p : distribution) :
  mlp_factory dim_in dim_h dim_out dd prior rec_args gen_args = Ok (q, c, p) ->
  (exists d o, gen_args = PyDict d /\ d !! "output" = Some o)
  /\ (rec_args = PyNone \/ exists d, rec_args = PyDict d)
  /\ is_Some (mlp_distribution q)
  /\ is_Some (mlp_distribution c).
Proof. apply mlp_factory_Ok_inv. Qed.

Lemma mlp_factory_requirements_witness :
  exists q c p,
    mlp_factory (E := Sample.externals) (PyInt 5) (PyInt 3) (PyInt 5)
      (PyStr "binomial") PyNone PyNone Sample.gen_args = Ok (q, c, p)
    /\ is_Some (mlp_distribution q) /\ is_Some (mlp_distribution c).
Proof.
  destruct (mlp_factory (E := Sample.externals) (PyInt 5) (PyInt 3) (PyInt 5)
              (PyStr "binomial") PyNone PyNone Sample.gen_args)
    as [[[q c] p]|e] eqn:Hf; [|vm_compute in Hf; discriminate Hf].
  destruct (mlp_factory_requirements Sample.externals _ _ _ _ _ _ _ q c p Hf)
    as (_ & _ & Hq & Hc).
  exists q, c, p. repeat split; assumption.
Defined.

(** ** [factory] and [unpack]: what gets built *)

(** X14: [factory] refuses its arguments before anything is built:
    [data_distribution=None] fails the assertion, and a keyword other
    than [prior], [rec_args] and [gen_args] is a TypeError, whatever the
    imported code does. *)
Theorem factory_refuses (E : Externals) (dim_in dim_h dim_out : pyval)
    (kw : kwargs) :
  factory dim_in dim_h dim_out (Some PyNone) kw = Raise AssertionError
  /\ (forall dd k,
        dd <> Some PyNone ->
        is_Some (kw !! k) ->
        k ∉ mlp_factory_keywords ->
        factory dim_in dim_h dim_out dd kw
        = Raise (TypeError "mlp_factory() got an unexpected keyword argument")).
Proof.
  split; [reflexivity|].
  intros dd k Hdd Hk Hnot. unfold factory.
  assert (PyVal.is_none (default (PyStr "binomial") dd) = false) as ->.
  { destruct dd as [[]|]; try reflexivity. congruence. }
  simpl. rewrite bool_decide_eq_false_2; [reflexivity|].
  intros Hsub. apply Hnot, Hsub. apply elem_of_dom, Hk.
Qed.

Lemma factory_refuses_witness :
  factory (E := Sample.externals) (PyInt 5) (PyInt 3) PyNone None
    (<["name" := PyStr "hm"]> ∅)
  = Raise (TypeError "mlp_factory() got an unexpected keyword argument").
Proof.
  destruct (factory_refuses Sample.externals (PyInt 5) (PyInt 3) PyNone
              (<["name" := PyStr "hm"]> ∅)) as (_ & H).
  apply (H None "name"); [discriminate | eexists; reflexivity |].
  apply (bool_decide_unpack _). vm_compute. exact I.
Defined.

(** X15: a model [factory] returns is [Helmholtz(posterior, conditional,
    prior)] for networks [mlp_factory] returned: both networks have a
    distribution, the prior is an instance of one of the four named
    classes, and the model was initialised under the name of that
    class. *)
Theorem factory_builds_named_models (E : Externals)
    (dim_in dim_h dim_out : pyval) (dd : option pyval) (kw : kwargs)
    (m : helmholtz) :
  factory dim_in dim_h dim_out dd kw = Ok m ->
  exists q c p n,
    mlp_factory dim_in dim_h
      (if PyVal.is_none dim_out then dim_in else dim_out)
      (default (PyStr "binomial") dd)
      (PyVal.dict_get kw "prior") (PyVal.dict_get kw "rec_args")
      (PyVal.dict_get kw "gen_args") = Ok (q, c, p)
    /\ is_Some (mlp_distribution q)
    /\ is_Some (mlp_distribution c)
    /\ supported (dist_cls p)
    /\ default_name p = Ok n
    /\ __init__ q c p (Some n) ∅ = Ok m.
Proof.
  intros H. unfold factory in H.
  apply bind_Ok in H as (u & _ & H).
  destruct (bool_decide (dom kw ⊆ mlp_factory_keywords));
    [|discriminate H].
  apply bind_Ok in H as ([[q c] p] & Hf & Hi).
  destruct (mlp_factory_Ok_inv E _ _ _ _ _ _ _ q c p Hf)
    as (_ & _ & Hq & Hc).
  unfold __init__ in Hi.
  destruct (default_name p) as [n|e] eqn:Hn; [|discriminate Hi].
  exists q, c, p, n. split; [exact Hf|]. split; [exact Hq|].
  split; [exact Hc|]. split.
  - unfold default_name in Hn. unfold supported.
    destruct (dist_cls p); try exact I. discriminate Hn.
  - split; [exact Hn|]. unfold __init__. exact Hi.
Qed.

Lemma factory_builds_named_models_witness :
  exists m q c p,
    factory (E := Sample.externals) (PyInt 5) (PyInt 3) PyNone None
      (<["gen_args" := Sample.gen_args]> ∅) = Ok m
    /\ mlp_factory (E := Sample.externals) (PyInt 5) (PyInt 3) (PyInt 5)
         (PyStr "binomial") PyNone PyNone Sample.gen_args = Ok (q, c, p)
    /\ supported (dist_cls p).
Proof.
  destruct (factory (E := Sample.externals) (PyInt 5) (PyInt 3) PyNone None
              (<["gen_args" := Sample.gen_args]> ∅)) as [m|e] eqn:Hm;
    [|vm_compute in Hm; discriminate Hm].
  destruct (factory_builds_named_models Sample.externals _ _ _ _ _ m Hm)
    as (q & c & p & n & Hf & _ & _ & Hs & _).
  exists m, q, c, p. split; [reflexivity|]. split; [exact Hf|exact Hs].
Defined.

(** X16: [unpack] does not hand its [dim_out] to the factory: whatever
    [dim_out] it is called with, the model it returns is the one
    [factory] builds with [dim_out] omitted, and the output dimension of
    the conditional of that model is [dim_in]. *)
Theorem unpack_drops_dim_out (E : Externals)
    (dim_in : Z) (dim_h dim_out prior dd rec_args gen_args : pyval)
    (model_args : kwargs) (out : list string) (models : list model)
    (rest : kwargs) (none : pyval) :
  reads_dimensions E ->
  keeps_conditional_output E ->
  selects_dag gen_args = false ->
  unpack (PyInt dim_in) dim_h dim_out prior dd rec_args gen_args model_args
    = (out, Ok (models, rest, none)) ->
  exists m,
    models = [ModelHelmholtz m; ModelMLP (posterior m);
              ModelMLP (conditional m); ModelDistribution (Helmholtz.prior m)]
    /\ factory (PyInt dim_in) dim_h PyNone (Some dd)
         (<["prior" := prior]>
          (<["rec_args" := rec_args]> (<["gen_args" := gen_args]> ∅)))
       = Ok m
    /\ mlp_dim_out (conditional m) = dim_in.
Proof.
  intros Hnet Hkeep Hdag H.
  unfold unpack in H. destruct (PyVal.is_none dd) eqn:Hdd; [discriminate H|].
  injection H as _ H. apply bind_Ok in H as (m & Hm & H).
  injection H as <- _ _.
  exists m. split; [reflexivity|]. split; [exact Hm|].
  unfold factory in Hm. simpl in Hm. rewrite Hdd in Hm. simpl in Hm.
  destruct (bool_decide _); [|discriminate Hm].
  apply bind_Ok in Hm as ([[q c] p] & Hf & Hi).
  unfold PyVal.dict_get in Hf.
  rewrite lookup_insert_eq in Hf.
  rewrite lookup_insert_ne, lookup_insert_eq in Hf by discriminate.
  rewrite !lookup_insert_ne, lookup_insert_eq in Hf by discriminate.
  simpl in Hf.
  rewrite (init_keeps_conditional_output E q c p None ∅ m Hkeep Hi).
  destruct (mlp_factory_wiring E _ _ _ _ _ _ _ q c p Hnet Hdag Hf)
    as (_ & _ & Hout & _).
  apply Hout. reflexivity.
Qed.

Lemma unpack_drops_dim_out_witness :
  exists out m rest none,
    unpack (E := Sample.externals) (PyInt 5) (PyInt 3) (PyInt 9) PyNone
      (PyStr "binomial") PyNone Sample.gen_args ∅
    = (out, Ok ([ModelHelmholtz m; ModelMLP (posterior m);
                 ModelMLP (conditional m);
                 ModelDistribution (Helmholtz.prior m)], rest, none))
    /\ mlp_dim_out (conditional m) = 5.
Proof.
  destruct (unpack (E := Sample.externals) (PyInt 5) (PyInt 3) (PyInt 9) PyNone
              (PyStr "binomial") PyNone Sample.gen_args ∅)
    as [out [[[models rest] none]|e]] eqn:Hu;
    [|vm_compute in Hu; discriminate Hu].
  destruct (unpack_drops_dim_out Sample.externals 5 (PyInt 3) (PyInt 9) PyNone
              (PyStr "binomial") PyNone Sample.gen_args ∅ out models
              rest none sample_reads_dimensions
              sample_keeps_conditional_output eq_refl Hu)
    as (m & -> & _ & Hout).
  exists out, m, rest, none. split; [reflexivity|exact Hout].
Defined.


(** ** The setup script: the two paths *)

Lemma fetch_step_cases (ev : Setup.event) (warning : string)
    (outcome : result unit) (t : list Setup.event) :
  exists rest r,
    Setup.try_except (Setup.call ev outcome) Setup.is_HTTPError
      (Setup.emit (Setup.Print warning)) t = (t ++ rest, r)
    /\ (rest = [ev] \/ rest = [ev; Setup.Print warning] /\ r = Ok tt).
Proof.
  unfold Setup.try_except, Setup.call, Setup.emit.
  destruct outcome as [[]|e]; [eauto|].
  destruct (Setup.is_HTTPError e); [|eauto].
  rewrite <- app_assoc. simpl. eauto 6.
Qed.

(** A fetch the user may decline. *)
Lemma asked_fetch_cases (ask : bool) (ev : Setup.event) (warning : string)
    (outcome : result unit) (t : list Setup.event) :
  exists rest r,
    (if ask
     then Setup.try_except (Setup.call ev outcome) Setup.is_HTTPError
            (Setup.emit (Setup.Print warning))
     else @mret _ Setup.prog_ret _ tt) t = (t ++ rest, r)
    /\ (rest = [] /\ ask = false /\ r = Ok tt
        \/ ask = true /\ (rest = [ev]
                          \/ rest = [ev; Setup.Print warning] /\ r = Ok tt)).
Proof.
  destruct ask.
  - destruct (fetch_step_cases ev warning outcome t) as (rest & r & -> & H).
    exists rest, r. split; [reflexivity|]. right. split; [reflexivity|exact H].
  - exists [], (Ok tt). split; [|left; repeat split].
    cbv [mret Setup.prog_ret Setup.ret]. rewrite app_nil_r. reflexivity.
Qed.

Lemma theanorc_events_cases (w : Setup.env) :
  Forall is_download_event (theanorc_events w)
  /\ (Setup.FetchBasicData ∉ theanorc_events w)
  /\ (Setup.FetchNeuroimagingData ∉ theanorc_events w)
  /\ (Setup.WriteDefaultTheanorc ∈ theanorc_events w ->
      Setup.isfile w (theanorc_path w) = false).
Proof.
  unfold theanorc_events. fold (theanorc_path w).
  destruct (Setup.isfile w (theanorc_path w));
    (split; [repeat constructor|]); trace_mem.
Qed.

Lemma downloads_cases (w : Setup.env) (t : list Setup.event) :
  exists rest r,
    Setup.downloads w t = (t ++ rest, r)
    /\ Forall is_download_event rest
    /\ (Setup.FetchBasicData ∈ rest ->
        Setup.query_yes_no w Setup.basic_question = true)
    /\ (Setup.FetchNeuroimagingData ∈ rest ->
        Setup.query_yes_no w Setup.neuroimaging_question = true)
    /\ (Setup.WriteDefaultTheanorc ∈ rest ->
        Setup.isfile w (theanorc_path w) = false /\ r = Ok tt).
Proof.
  destruct (theanorc_events_cases w) as (HF3 & Hb3 & Hn3 & Hw3).
  unfold Setup.downloads.
  cbv [mbind Setup.prog_bind Setup.seq].
  unfold Setup.emit at 1.
  destruct (asked_fetch_cases (Setup.query_yes_no w Setup.basic_question)
              Setup.FetchBasicData Setup.basic_warning
              (Setup.fetch_basic_data w)
              ([] ++ t ++ [Setup.QueryYesNo Setup.basic_question]))
    as (rest1 & r1 & H1 & C1).
  simpl app in H1. rewrite H1. clear H1.
  destruct r1 as [[]|e1].
  2:{ exists ([Setup.QueryYesNo Setup.basic_question] ++ rest1), (Raise e1).
      rewrite <- app_assoc. split; [reflexivity|].
      destruct C1 as [(-> & _ & ?)|[Hask [->|[-> ?]]]]; try discriminate.
      split; [repeat constructor|]. trace_mem. }
  unfold Setup.emit at 1 2.
  destruct (asked_fetch_cases (Setup.query_yes_no w Setup.neuroimaging_question)
              Setup.FetchNeuroimagingData Setup.neuroimaging_warning
              (Setup.fetch_neuroimaging_data w)
              ((((t ++ [Setup.QueryYesNo Setup.basic_question]) ++ rest1)
                ++ [Setup.Print Setup.neuroimaging_notice])
               ++ [Setup.QueryYesNo Setup.neuroimaging_question]))
    as (rest2 & r2 & H2 & C2).
  rewrite H2. clear H2.
  destruct r2 as [[]|e2].
  - rewrite theanorc_trace.
    exists ([Setup.QueryYesNo Setup.basic_question] ++ rest1
            ++ [Setup.Print Setup.neuroimaging_notice;
                Setup.QueryYesNo Setup.neuroimaging_question]
            ++ rest2 ++ theanorc_events w), (Ok tt).
    split; [rewrite <- !app_assoc; reflexivity|].
    destruct C1 as [(-> & H1 & _)|[H1 [->|[-> _]]]];
      destruct C2 as [(-> & H2 & _)|[H2 [->|[-> _]]]];
      (split; [rewrite !Forall_app; repeat split; try assumption;
               repeat constructor|]);
      trace_mem.
  - exists ([Setup.QueryYesNo Setup.basic_question] ++ rest1
            ++ [Setup.Print Setup.neuroimaging_notice;
                Setup.QueryYesNo Setup.neuroimaging_question]
            ++ rest2), (Raise e2).
    split; [rewrite <- !app_assoc; reflexivity|].
    destruct C1 as [(-> & H1 & _)|[H1 [->|[-> _]]]];
      destruct C2 as [(-> & H2 & ?)|[H2 [->|[-> ?]]]]; try discriminate;
      (split; [rewrite ?Forall_app; repeat split; try assumption;
               repeat constructor|]);
      trace_mem.
Qed.

Lemma main_cases (w : Setup.env) :
  (exists t0 a b rest r,
     Setup.configure_paths w [] = (t0, Ok tt)
     /\ Setup.main w [] = (t0 ++ rest, r)
     /\ Setup.isdir w a = true /\ Setup.isdir w b = true
     /\ (forall a' b', Setup.WritePathConf a' b' ∈ t0 <-> a' = a /\ b' = b)
     /\ Forall is_path_event t0
     /\ Forall is_download_event rest
     /\ (Setup.FetchBasicData ∈ rest ->
         Setup.query_yes_no w Setup.basic_question = true)
     /\ (Setup.FetchNeuroimagingData ∈ rest ->
         Setup.query_yes_no w Setup.neuroimaging_question = true)
     /\ (Setup.WriteDefaultTheanorc ∈ rest ->
         Setup.isfile w (theanorc_path w) = false /\ r = Ok tt))
  \/ (exists t e,
        Setup.main w [] = (t, Raise e)
        /\ (forall a b, Setup.WritePathConf a b ∉ t)
        /\ Forall is_path_event t).
Proof.
  destruct (configure_paths_cases w)
    as [(t0 & a & b & Hc & Ha & Hb & Hw & HF)|(t & e & Hc & Hw & HF)].
  - left. rewrite (main_after_paths w t0 Hc).
    destruct (downloads_cases w t0) as (rest & r & -> & H).
    destruct H as (H1 & H2 & H3 & H4).
    exists t0, a, b, rest, r.
    split; [exact Hc|]. split; [reflexivity|]. split; [exact Ha|].
    split; [exact Hb|]. split; [exact Hw|]. split; [exact HF|].
    split; [exact H1|]. split; [exact H2|]. split; [exact H3|exact H4].
  - right. exists t, e. split; [|split; assumption].
    unfold Setup.main.
    change (Setup.seq (Setup.configure_paths w) (fun _ => Setup.downloads w) []
            = (t, Raise e)).
    unfold Setup.seq. rewrite Hc. reflexivity.
Qed.

Lemma path_event_not_download (e : Setup.event) (t : list Setup.event) :
  Forall is_path_event t -> e ∈ t -> is_path_event e.
Proof. intros H Hin. rewrite Forall_forall in H. apply H, Hin. Qed.

Lemma path_events_come_first (t0 rest pre post : list Setup.event)
    (e : Setup.event) :
  Forall is_path_event t0 ->
  ~ is_path_event e ->
  t0 ++ rest = pre ++ e :: post ->
  exists mid, pre = t0 ++ mid.
Proof.
  intros HF He. revert pre.
  induction HF as [|x t0 Hx HF IH]; intros pre H.
  - exists pre. reflexivity.
  - destruct pre as [|y pre]; simpl in H; injection H as -> H.
    + destruct (He Hx).
    + destruct (IH pre H) as (mid & ->). exists mid. reflexivity.
Qed.

(** X17: the script writes the path configuration only for two existing
    directories, and asks about downloads only after it has written it:
    in the trace, every question has the written configuration
    somewhere before it.  A run that writes no configuration ends with
    an exception, before any question, fetch or [.theanorc] step. *)
Theorem paths_are_checked_before_writing (w : Setup.env) :
  (forall a b,
     Setup.WritePathConf a b ∈ fst (Setup.main w []) ->
     Setup.isdir w a = true /\ Setup.isdir w b = true)
  /\ (forall q pre post,
        fst (Setup.main w []) = pre ++ Setup.QueryYesNo q :: post ->
        exists a b, Setup.WritePathConf a b ∈ pre)
  /\ ((forall a b, Setup.WritePathConf a b ∉ fst (Setup.main w [])) ->
      (exists e, snd (Setup.main w []) = Raise e)
      /\ Forall is_path_event (fst (Setup.main w []))).
Proof.
  destruct (main_cases w)
    as [(t0 & a & b & rest & r & Hc & -> & Ha & Hb & Hw & HF0 & HF & _)
       |(t & e & -> & Hw & HF)]; simpl fst; simpl snd.
  - split; [|split].
    + intros a' b' Hin. apply elem_of_app in Hin as [Hin|Hin].
      * apply Hw in Hin as [-> ->]. split; assumption.
      * rewrite Forall_forall in HF. destruct (HF _ Hin).
    + intros q pre post Hsplit.
      destruct (path_events_come_first t0 rest pre post (Setup.QueryYesNo q)
                  HF0 (fun H => H) Hsplit) as (mid & ->).
      exists a, b. apply elem_of_app. left. apply Hw. split; reflexivity.
    + intros Hno. exfalso. apply (Hno a b). apply elem_of_app. left.
      apply Hw. split; reflexivity.
  - split; [|split].
    + intros a b Hin. destruct (Hw a b Hin).
    + intros q pre post Hsplit.
      assert (Setup.QueryYesNo q ∈ t) as Hin.
      { rewrite Hsplit. apply elem_of_app. right. apply list_elem_of_here. }
      destruct (path_event_not_download _ _ HF Hin).
    + intros _. split; [eexists; reflexivity|exact HF].
Qed.

Lemma paths_are_checked_before_writing_witness :
  ((exists e, snd (Setup.main no_data_directory []) = Raise e)
   /\ Forall is_path_event (fst (Setup.main no_data_directory [])))
  /\ (exists pre post a b,
        fst (Setup.main configured [])
        = pre ++ Setup.QueryYesNo Setup.basic_question :: post
        /\ Setup.WritePathConf a b ∈ pre).
Proof.
  split.
  - destruct (paths_are_checked_before_writing no_data_directory)
      as (H & _ & _).
    destruct (paths_are_checked_before_writing no_data_directory)
      as (_ & _ & H').
    apply H'. intros a b Hin. destruct (H a b Hin) as [Ha _]. discriminate Ha.
  - destruct (paths_are_checked_before_writing configured) as (_ & H & _).
    assert (Setup.QueryYesNo Setup.basic_question
              ∈ fst (Setup.main configured [])) as Hin.
    { vm_compute.
      repeat first [apply list_elem_of_here | apply list_elem_of_further]. }
    apply list_elem_of_split in Hin as (pre & post & Hsplit).
    destruct (H _ pre post Hsplit) as (a & b & Hab).
    exists pre, post, a, b. split; [exact Hsplit|exact Hab].
Defined.

(** X18: nothing is fetched without the user's consent, and the default
    [.theanorc] is written only when the file is missing and only by a
    run that ends normally. *)
Theorem fetches_need_consent (w : Setup.env) :
  (Setup.FetchBasicData ∈ fst (Setup.main w []) ->
     Setup.query_yes_no w Setup.basic_question = true)
  /\ (Setup.FetchNeuroimagingData ∈ fst (Setup.main w []) ->
      Setup.query_yes_no w Setup.neuroimaging_question = true)
  /\ (Setup.WriteDefaultTheanorc ∈ fst (Setup.main w []) ->
      Setup.isfile w (theanorc_path w) = false
      /\ snd (Setup.main w []) = Ok tt).
Proof.
  destruct (main_cases w)
    as [(t0 & a & b & rest & r & Hc & -> & _ & _ & _ & HF0 & _ & Hb & Hn & Ht)
       |(t & e & -> & _ & HF)]; simpl fst; simpl snd.
  - split; [|split]; intros Hin; apply elem_of_app in Hin as [Hin|Hin];
      try (destruct (path_event_not_download _ _ HF0 Hin));
      first [apply Hb, Hin | apply Hn, Hin | apply Ht, Hin].
  - split; [|split]; intros Hin;
      destruct (path_event_not_download _ _ HF Hin).
Qed.

Lemma fetches_need_consent_witness :
  (Setup.FetchBasicData ∉ fst (Setup.main configured []))
  /\ (Setup.WriteDefaultTheanorc ∉ fst (Setup.main configured [])).
Proof.
  destruct (fetches_need_consent configured) as (Hb & _ & Ht).
  split; intros Hin; [apply Hb in Hin|apply Ht in Hin as [Hin _]];
    discriminate Hin.
Defined.

(** X19: pressing Enter at both prompts keeps the configured paths:
    with '$data' and '$outs' in the configuration, empty answers and
    existing directories, the configuration is written back with the
    configured paths (expanded), and the first part ends normally. *)
Theorem enter_keeps_configured_paths (w : Setup.env)
    (d : gmap string string) (data outs : string) :
  Setup.get_paths w = Ok d ->
  d !! "$data" = Some data ->
  d !! "$outs" = Some outs ->
  Setup.raw_input w ("Default data path: " +:+ "[" +:+ data +:+ "] ") = "" ->
  Setup.raw_input w ("Default output path: " +:+ "[" +:+ outs +:+ "] ") = "" ->
  Setup.isdir w (Setup.expanduser w data) = true ->
  Setup.isdir w (Setup.expanduser w outs) = true ->
  exists t,
    Setup.configure_paths w [] = (t, Ok tt)
    /\ Setup.WritePathConf (Setup.expanduser w data) (Setup.expanduser w outs)
       ∈ t
    /\ Setup.RawInput ("Default data path: " +:+ "[" +:+ data +:+ "] ") ∈ t
    /\ Setup.RawInput ("Default output path: " +:+ "[" +:+ outs +:+ "] ") ∈ t.
Proof.
  intros Hg Hd Ho Hi1 Hi2 Hd1 Hd2.
  unfold Setup.configure_paths, Setup.ask_path. run_setup.
  rewrite Hg, Hd, Hi1. rewrite (bool_decide_eq_true_2 _ eq_refl).
  rewrite Hd1. cbv beta iota delta [negb].
  rewrite Ho, Hi2. rewrite (bool_decide_eq_true_2 _ eq_refl).
  rewrite Hd2. cbv beta iota delta [negb].
  eexists. split; [reflexivity|]. simpl app.
  repeat split;
    repeat first [apply list_elem_of_here | apply list_elem_of_further].
Qed.

Lemma enter_keeps_configured_paths_witness :
  exists t,
    Setup.configure_paths configured [] = (t, Ok tt)
    /\ Setup.WritePathConf "/data" "/outs" ∈ t.
Proof.
  destruct (enter_keeps_configured_paths configured
              (<["$data" := "/data"]> (<["$outs" := "/outs"]> ∅))
              "/data" "/outs")
    as (t & Ht & Hw & _); try reflexivity.
  exists t. split; [exact Ht|exact Hw].
Defined.

(** X20: an exception of the basic fetch other than HTTPError is not
    caught: the script ends with it right after the fetch, with no
    warning, no question about the neuroimaging data and no [.theanorc]
    step. *)
Theorem other_fetch_errors_propagate (w : Setup.env) (t0 : list Setup.event)
    (e : exn) :
  Setup.configure_paths w [] = (t0, Ok tt) ->
  Setup.query_yes_no w Setup.basic_question = true ->
  Setup.fetch_basic_data w = Raise e ->
  e <> HTTPError ->
  Setup.main w []
  = (t0 ++ [Setup.QueryYesNo Setup.basic_question; Setup.FetchBasicData],
     Raise e).
Proof.
  intros Hc Hyes Hfail Hne. rewrite (main_after_paths w t0 Hc).
  run_downloads. rewrite Hyes, Hfail.
  destruct e; try contradiction; rewrite <- app_assoc; reflexivity.
Qed.

Lemma other_fetch_errors_propagate_witness :
  snd (Setup.main broken_disk []) = Raise (OtherError "IOError")
  /\ (Setup.WriteDefaultTheanorc ∉ fst (Setup.main broken_disk [])).
Proof.
  rewrite (other_fetch_errors_propagate broken_disk
             (fst (Setup.configure_paths broken_disk []))
             (OtherError "IOError"));
    [|vm_compute; reflexivity|reflexivity|reflexivity|discriminate].
  split; [reflexivity|]. vm_compute fst.
  rewrite !not_elem_of_cons. repeat split; try discriminate.
  apply not_elem_of_nil.
Defined.

(** ** The log marginal: why the shift is there *)

Section Bounds.
#[local] Open Scope R_scope.

Lemma ln_monotone (x y : R) : 0 < x -> x <= y -> ln x <= ln y.
Proof.
  intros Hx [Hlt| ->]; [|lra]. left. apply ln_increasing; assumption.
Qed.

Lemma exp_monotone (x y : R) : x <= y -> exp x <= exp y.
Proof.
  intros [Hlt| ->]; [|lra]. left. apply exp_increasing, Hlt.
Qed.

Lemma fold_max_bounds (a : R) (l : list R) :
  a <= fold_right Rmax a l
  /\ Forall (fun b => b <= fold_right Rmax a l) l
  /\ (fold_right Rmax a l = a \/ In (fold_right Rmax a l) l).
Proof.
  induction l as [|b l (IHa & IHl & IHin)]; simpl.
  - split; [lra|]. split; [constructor|]. left. reflexivity.
  - pose proof (Rmax_l b (fold_right Rmax a l)) as Hl.
    pose proof (Rmax_r b (fold_right Rmax a l)) as Hr.
    split; [lra|]. split.
    + constructor; [exact Hl|].
      eapply Forall_impl; [exact IHl|]. intros c Hc. simpl in Hc. lra.
    + destruct (Rle_dec b (fold_right Rmax a l)).
      * rewrite Rmax_right by assumption.
        destruct IHin as [Heq|Hin]; [left; exact Heq|right; right; exact Hin].
      * rewrite Rmax_left by lra. right. left. reflexivity.
Qed.

Lemma max_bounds (v : list R) :
  v <> [] ->
  Forall (fun a => a <= Numeric.max v) v /\ In (Numeric.max v) v.
Proof.
  destruct v as [|a l]; [congruence|]. intros _. simpl Numeric.max.
  destruct (fold_max_bounds a l) as (Ha & Hl & Hin).
  split; [constructor; assumption|].
  destruct Hin as [->|Hin]; [left; reflexivity|right; exact Hin].
Qed.

Lemma sum_bounds (w : list R) :
  Forall (fun a => 0 < a <= 1) w ->
  0 <= Numeric.sum w <= INR (length w)
  /\ (forall a, In a w -> a <= Numeric.sum w).
Proof.
  induction 1 as [|a w Ha _ (IH & IHin)].
  - simpl. split; [lra|]. intros a [].
  - change (Numeric.sum (a :: w)) with (a + Numeric.sum w).
    rewrite length_cons, S_INR. split; [lra|].
    intros b [->|Hb]; [lra|]. specialize (IHin b Hb). lra.
Qed.

(** X21: the shift by the maximum keeps every exponential of
    [log_marginal] in (0, 1], with the value 1 reached, so the mean the
    logarithm is taken of lies between 1/N and 1; the log marginal of a
    data point lies between [max - log N] and [max] of its
    log-ratios. *)
Theorem shifted_weights_are_bounded (log_p : list R) :
  log_p <> [] ->
  let w := map (fun v => exp (v - Numeric.max log_p)) log_p in
  Forall (fun a => 0 < a <= 1) w
  /\ In 1 w
  /\ / INR (length log_p) <= Numeric.mean w <= 1
  /\ Numeric.max log_p - ln (INR (length log_p))
       <= Numeric.log_marginal_column log_p <= Numeric.max log_p.
Proof.
  intros Hne w.
  destruct (max_bounds log_p Hne) as (Hle & Hin).
  set (m := Numeric.max log_p) in *.
  assert (Forall (fun a => 0 < a <= 1) w) as Hw.
  { subst w. apply Forall_map. eapply Forall_impl; [exact Hle|].
    intros a Ha. simpl in *. split; [apply exp_pos|].
    rewrite <- exp_0. apply exp_monotone. lra. }
  assert (In 1 w) as H1.
  { subst w. apply in_map_iff. exists m. split; [|exact Hin].
    replace (m - m) with 0 by lra. apply exp_0. }
  assert (0 < INR (length log_p)) as Hn.
  { apply lt_0_INR. destruct log_p; [congruence|simpl; lia]. }
  destruct (sum_bounds w Hw) as ((_ & Hup) & Hlow).
  specialize (Hlow 1 H1).
  assert (length w = length log_p) as Hlen by (subst w; apply length_map).
  rewrite Hlen in Hup.
  assert (/ INR (length log_p) <= Numeric.mean w <= 1) as Hmean.
  { unfold Numeric.mean. rewrite Hlen. unfold Rdiv. split.
    - rewrite <- (Rmult_1_l (/ INR (length log_p))) at 1.
      apply Rmult_le_compat_r; [left; apply Rinv_0_lt_compat, Hn|exact Hlow].
    - rewrite <- (Rinv_r (INR (length log_p))) by lra.
      apply Rmult_le_compat_r; [left; apply Rinv_0_lt_compat, Hn|exact Hup]. }
  split; [exact Hw|]. split; [exact H1|]. split; [exact Hmean|].
  unfold Numeric.log_marginal_column. fold m. fold w.
  assert (0 < / INR (length log_p)) as Hinv by (apply Rinv_0_lt_compat, Hn).
  destruct Hmean as [Hlo Hhi].
  pose proof (ln_monotone _ _ Hinv Hlo) as L1.
  assert (0 < Numeric.mean w) as Hpos by lra.
  pose proof (ln_monotone _ _ Hpos Hhi) as L2.
  rewrite ln_Rinv in L1 by exact Hn. rewrite ln_1 in L2. lra.
Qed.

Lemma shifted_weights_are_bounded_witness :
  Numeric.max [0; 1] - ln (INR 2)
    <= Numeric.log_marginal_column [0; 1] <= Numeric.max [0; 1].
Proof.
  apply (shifted_weights_are_bounded [0; 1]). discriminate.
Defined.

(** X22: adding a constant to all log-ratios of a data point adds it to
    the log marginal. *)
Theorem log_marginal_translates (log_p : list R) (c : R) :
  log_p <> [] ->
  Numeric.log_marginal_column (map (fun v => v + c) log_p)
  = Numeric.log_marginal_column log_p + c.
Proof.
  intros Hne. unfold Numeric.log_marginal_column.
  assert (map (fun v => v + c) log_p <> []) as Hne' by (destruct log_p; [congruence|discriminate]).
  rewrite (shift_cancels _ _ (Z.of_nat (length (map (fun v => v + c) log_p))) Hne' eq_refl).
  rewrite (shift_cancels _ _ (Z.of_nat (length log_p)) Hne eq_refl).
  unfold Numeric.log_p, Numeric.log_sum_exp. rewrite length_map, map_map.
  assert (Numeric.sum (map (fun x => exp (x + c)) log_p)
          = exp c * Numeric.sum (map exp log_p)) as ->.
  { clear. induction log_p as [|a l IH]; simpl; [lra|].
    rewrite IH, exp_plus. lra. }
  rewrite ln_mult, ln_exp; [lra|apply exp_pos|apply sum_exp_pos, Hne].
Qed.

Lemma log_marginal_translates_witness :
  Numeric.log_marginal_column (map (fun v => v + 5) [0; 1])
  = Numeric.log_marginal_column [0; 1] + 5.
Proof.
  apply (log_marginal_translates [0; 1] 5). discriminate.
Defined.

End Bounds.
